(** * VideoLingo-colab: the bootstrap script [install.py]

    A shallow embedding of [install.py] and the properties of its
    setup procedure.

    The script is a sequence of calls to the outside world (pip, apt-get,
    ffmpeg, the NVML binding, pkg_resources, two text files).  The outside
    world is a record [Env] of answers, one per thing the script can ask;
    a run of a function starts from the files on disk and yields a result
    (a value or a raised exception), the files afterwards and the log of
    what the function did, in order. *)

From stdpp Require Import gmap strings list pretty.
From Stdlib Require Import ZArith Ascii String Sorted.

Open Scope string_scope.

(** ** Python strings

    A [str] is a Rocq [string]; a character is a code point below 256.
    The literals of the script are kept as they are written in the source. *)

Module Str.

Definition nl : string := String (ascii_of_nat 10) "".

(** [str.isspace] on one character: TAB..CR, FS..US, space, NEL, NBSP. *)
Definition isspace (c : ascii) : bool :=
  let n := N_of_ascii c in
  ((9 <=? n) && (n <=? 13) || (28 <=? n) && (n <=? 32)
   || (n =? 133) || (n =? 160))%N.

(** The line boundaries of [str.splitlines]: LF, VT, FF, CR, FS, GS, RS, NEL
    (CR LF is one boundary, see [splitlines]). *)
Definition islinebreak (c : ascii) : bool :=
  let n := N_of_ascii c in
  ((10 <=? n) && (n <=? 13) || (28 <=? n) && (n <=? 30) || (n =? 133))%N.

Definition is_cr (c : ascii) : bool := (N_of_ascii c =? 13)%N.
Definition is_lf (c : ascii) : bool := (N_of_ascii c =? 10)%N.

Fixpoint lstrip (s : string) : string :=
  match s with
  | EmptyString => EmptyString
  | String c s' => if isspace c then lstrip s' else s
  end.

Fixpoint rstrip (s : string) : string :=
  match s with
  | EmptyString => EmptyString
  | String c s' =>
      match rstrip s' with
      | EmptyString => if isspace c then EmptyString else String c EmptyString
      | r => String c r
      end
  end.

(** [s.strip()] *)
Definition strip (s : string) : string := rstrip (lstrip s).

(** [s.startswith(p)] *)
Definition startswith (s p : string) : bool := String.prefix p s.

(** [sub in s] *)
Fixpoint contains (sub s : string) : bool :=
  String.prefix sub s ||
  match s with
  | EmptyString => false
  | String _ s' => contains sub s'
  end.

(** [s.split(sep)[0]]: the text before the first occurrence of [sep],
    all of [s] when there is none ([sep] is not empty). *)
Fixpoint split_head (sep s : string) : string :=
  match s with
  | EmptyString => EmptyString
  | String c s' => if String.prefix sep s then EmptyString
                   else String c (split_head sep s')
  end.

(** [sep.join(l)] *)
Definition join (sep : string) (l : list string) : string := String.concat sep l.

(** [s.splitlines()]: [cur] holds the characters of the line being read,
    last one first.  No line is produced for what follows the last
    boundary when that is empty. *)
Fixpoint splitlines_from (cur : list ascii) (s : string) : list string :=
  match s with
  | EmptyString =>
      match cur with
      | [] => []
      | _ => [string_of_list_ascii (rev cur)]
      end
  | String c s' =>
      if is_cr c then
        match s' with
        | String c' s'' =>
            if is_lf c' then string_of_list_ascii (rev cur) :: splitlines_from [] s''
            else string_of_list_ascii (rev cur) :: splitlines_from [] s'
        | EmptyString => string_of_list_ascii (rev cur) :: splitlines_from [] s'
        end
      else if islinebreak c then
        string_of_list_ascii (rev cur) :: splitlines_from [] s'
      else splitlines_from (c :: cur) s'
  end.

Definition splitlines (s : string) : list string := splitlines_from [] s.

(** [len(s)] *)
Definition len (s : string) : nat := String.length s.

End Str.

(** ** Exceptions, results and the log *)

Inductive exn : Type :=
| ImportError (module : string)
| CalledProcessError (cmd : list string) (returncode : Z)
| FileNotFoundError (filename : string)
| OSError (filename : string)
| NVMLError (code : Z)
| DistributionNotFound (req : string)
| UnboundLocalError (name : string)
| SystemExit (message : string)
| OtherError (name : string).

Inductive result (A : Type) : Type :=
| Ret (a : A)
| Raise (e : exn).
Arguments Ret {A} a.
Arguments Raise {A} e.

(** What the console receives. *)
Inductive output : Type :=
| Panel (text style : string)            (* console.print(Panel(text, style=style)) *)
| PanelFit (text style : string)         (* console.print(Panel.fit(text, style=style)) *)
| Text (text : string)                   (* console.print(text) and print(text) *)
| WelcomePanel (logo : string) (width : nat)
    (* Panel(ascii_logo, width=width, box=DOUBLE, title=..., border_style=...) *)
| FailedRequirements (e : exn).
    (* Panel(f"❌ Failed to install requirements: {str(e)}", style="red") *)

(** What a function does to the outside world, in order. *)
Inductive event : Type :=
| EvRun (argv : list string) (env : list (string * string))
    (* subprocess.run / subprocess.check_call; [env] lists the variables
       set on top of os.environ *)
| EvPopen (argv : list string)           (* subprocess.Popen *)
| EvPrint (o : output)
| EvWrite (path content : string)        (* open(path, 'w') ... f.write(content) *)
| EvRemove (path : string)               (* os.remove(path) *)
| EvCall (function : string).            (* a call into an imported library *)

(** How a child process ends: with a return code, or it cannot be started
    (no such executable, or another operating-system error). *)
Inductive proc_outcome : Type :=
| Exited (returncode : Z)
| NoSuchFile
| CannotStart.

#[global] Instance exn_eq_dec : EqDecision exn.
Proof. solve_decision. Defined.
#[global] Instance output_eq_dec : EqDecision output.
Proof. solve_decision. Defined.
#[global] Instance event_eq_dec : EqDecision event.
Proof. solve_decision. Defined.
#[global] Instance result_eq_dec {A} `{EqDecision A} : EqDecision (result A).
Proof. solve_decision. Defined.

(** ** Runs

    A function of the script is run from the files on disk; the run gives
    the value returned or the exception raised, the files afterwards and
    the log of the events it caused. *)

Record run (A : Type) : Type :=
  Run { value : result A; disk : gmap string string; log : list event }.
Arguments Run {A} value disk log.
Arguments value {A} r.
Arguments disk {A} r.
Arguments log {A} r.

Definition M (A : Type) : Type := gmap string string -> run A.

Definition ret {A} (a : A) : M A := fun d => Run (Ret a) d [].

Definition raise {A} (e : exn) : M A := fun d => Run (Raise e) d [].

(** The run [r] once the events [l] have happened. *)
Definition after {A} (l : list event) (r : run A) : run A :=
  Run (value r) (disk r) (l ++ log r).

Definition bind {A B} (m : M A) (k : A -> M B) : M B :=
  fun d =>
    let r := m d in
    match value r with
    | Ret a => after (log r) (k a (disk r))
    | Raise e => Run (Raise e) (disk r) (log r)
    end.

Declare Scope py_scope.
Delimit Scope py_scope with py.
Bind Scope py_scope with M.

Notation "'let*' x ':=' c 'in' k" := (bind c (fun x => k))
  (at level 10, x name, c at level 100, k at level 200) : py_scope.
Notation "c ;; k" := (bind c (fun _ => k))
  (at level 100, k at level 200, right associativity) : py_scope.

Open Scope py_scope.

(** [try: body  except <the classes h accepts>: handler]; an exception
    raised by the handler itself propagates. *)
Definition try_except {A} (body : M A) (h : exn -> option (M A)) : M A :=
  fun d =>
    let r := body d in
    match value r with
    | Ret _ => r
    | Raise e =>
        match h e with
        | Some handler => after (log r) (handler (disk r))
        | None => r
        end
    end.

(** [try: body  finally: final]; when [final] raises, its exception
    replaces the value or the exception of [body]. *)
Definition try_finally {A} (body : M A) (final : M unit) : M A :=
  fun d =>
    let r := body d in
    let r' := final (disk r) in
    Run (match value r' with
         | Ret _ => value r
         | Raise e => Raise e
         end) (disk r') (log r ++ log r').

Definition emit (ev : event) : M unit := fun d => Run (Ret tt) d [ev].

(** A value or an exception coming from an imported library. *)
Definition lift {A} (r : result A) : M A := fun d => Run r d [].

(** [for x in l: body x] *)
Fixpoint for_each {A} (l : list A) (body : A -> M unit) : M unit :=
  match l with
  | [] => ret tt
  | x :: rest => body x ;; for_each rest body
  end.

(** [with open(path, 'r') as f: f.read()] *)
Definition open_read (path : string) : M string :=
  fun d =>
    match d !! path with
    | Some content => Run (Ret content) d []
    | None => Run (Raise (FileNotFoundError path)) d []
    end.

(** [with open(path, 'w') as f: f.write(content)] *)
Definition open_write (path content : string) : M unit :=
  fun d => Run (Ret tt) (<[path := content]> d) [EvWrite path content].

(** [os.remove(path)] *)
Definition os_remove (path : string) : M unit :=
  fun d =>
    match d !! path with
    | Some _ => Run (Ret tt) (delete path d) [EvRemove path]
    | None => Run (Raise (FileNotFoundError path)) d []
    end.

(** [console.print(o)] and [print(o)] *)
Definition print (o : output) : M unit := emit (EvPrint o).

(** ** The outside world

    What the script asks of its environment, as one record of answers.
    An answer is fixed for a run: the script starts no command twice,
    [import google.colab] and [platform.system()] give the same answer
    each time, and what [import m] gives is its answer at the place where
    the script imports [m].  The child processes leave requirements.txt
    and requirements_temp.txt alone, and opening a file for writing
    succeeds. *)

Record Env : Type := {
  executable : string;                         (* sys.executable *)
  importable : string -> bool;                 (* does [import m] succeed *)
  system : string;                             (* platform.system() *)
  spawn : list string -> proc_outcome;         (* running argv as a child process *)
  get_distribution : string -> result string;  (* pkg_resources.get_distribution(name).version *)
  choose_mirror : result unit;                 (* core.pypi_autochoose.main() *)
  nvmlInit : result unit;
  nvmlDeviceGetCount : result nat;
  nvmlDeviceGetHandleByIndex : nat -> result nat;
  nvmlDeviceGetName : nat -> result string;
  nvmlShutdown : result unit
}.

(** ** The script *)

Definition ascii_logo : string :=
  Str.nl ++
  "__     ___     _            _     _                    " ++ Str.nl ++
  "\ \   / (_) __| | ___  ___ | |   (_)_ __   __ _  ___  " ++ Str.nl ++
  " \ \ / /| |/ _` |/ _ \/ _ \| |   | | '_ \ / _` |/ _ \ " ++ Str.nl ++
  "  \ V / | | (_| |  __/ (_) | |___| | | | | (_| | (_) |" ++ Str.nl ++
  "   \_/  |_|\__,_|\___|\___/|_____|_|_| |_|\__, |\___/ " ++ Str.nl ++
  "                                          |___/        " ++ Str.nl.

(** The variables the requirements install sets on top of os.environ. *)
Definition pip_env : list (string * string) :=
  [("PIP_NO_CACHE_DIR", "0"); ("PYTHONIOENCODING", "utf-8")].

(** What waiting for a child with [check=True] gives: a non-zero return
    code is a CalledProcessError, a child that cannot be started an
    OSError (FileNotFoundError when there is no such executable). *)
Definition checked (argv : list string) (o : proc_outcome) : result unit :=
  match o with
  | Exited rc => if decide (rc = 0%Z) then Ret tt
                 else Raise (CalledProcessError argv rc)
  | NoSuchFile => Raise (FileNotFoundError (hd "" argv))
  | CannotStart => Raise (OSError (hd "" argv))
  end.

(** What starting a child without waiting gives. *)
Definition started (argv : list string) (o : proc_outcome) : result unit :=
  match o with
  | Exited _ => Ret tt
  | NoSuchFile => Raise (FileNotFoundError (hd "" argv))
  | CannotStart => Raise (OSError (hd "" argv))
  end.

Section Script.

Variable E : Env.

(** [import m] and [from m.x import y]: ImportError when the package [m]
    cannot be imported. *)
Definition import_ (m : string) : M unit :=
  if importable E m then ret tt else raise (ImportError m).

(** A call [name(...)] into an imported library, answered by the world. *)
Definition call {A} (name : string) (answer : result A) : M A :=
  emit (EvCall name) ;; lift answer.

(** A child process that is waited for, with [check=True]. *)
Definition checked_process (argv : list string) (env : list (string * string)) : M unit :=
  emit (EvRun argv env) ;; lift (checked argv (spawn E argv)).

(** [subprocess.run(argv, ..., check=True)] *)
Definition subprocess_run (argv : list string) : M unit := checked_process argv [].

(** [subprocess.check_call(argv)] and [subprocess.check_call(argv, env={**os.environ, ...})] *)
Definition subprocess_check_call (argv : list string) (env : list (string * string)) : M unit :=
  checked_process argv env.

(** [subprocess.Popen(argv)]: the child is started and not waited for. *)
Definition subprocess_Popen (argv : list string) : M unit :=
  emit (EvPopen argv) ;; lift (started argv (spawn E argv)).

Definition is_colab : M bool :=
  try_except
    (import_ "google.colab" ;; ret true)
    (fun e => match e with
              | ImportError _ => Some (ret false)
              | _ => None
              end).

Definition install_package (packages : list string) : M unit :=
  subprocess_check_call ([executable E; "-m"; "pip"; "install"] ++ packages) [].

(** The body of the [try] statement of [check_nvidia_gpu]. *)
Definition query_devices : M bool :=
  call "pynvml.nvmlInit" (nvmlInit E) ;;
  let* device_count := call "pynvml.nvmlDeviceGetCount" (nvmlDeviceGetCount E) in
  if (0 <? device_count)%nat then
    print (Text "Detected NVIDIA GPU(s)") ;;
    for_each (seq 0 device_count) (fun i =>
      let* handle := call "pynvml.nvmlDeviceGetHandleByIndex"
                          (nvmlDeviceGetHandleByIndex E i) in
      let* name := call "pynvml.nvmlDeviceGetName" (nvmlDeviceGetName E handle) in
      print (Text ("GPU " ++ pretty i ++ ": " ++ name))) ;;
    ret true
  else
    print (Text "No NVIDIA GPU detected") ;;
    ret false.

Definition check_nvidia_gpu : M bool :=
  install_package ["pynvml"] ;;
  import_ "pynvml" ;;
  try_finally
    (try_except
       query_devices
       (fun e => match e with
                 | NVMLError _ =>
                     Some (print (Text "No NVIDIA GPU detected or NVIDIA drivers not properly installed") ;;
                           ret false)
                 | _ => None
                 end))
    (call "pynvml.nvmlShutdown" (nvmlShutdown E)).

(** The two local variables of the guidance branch of [check_ffmpeg]:
    [install_cmd] starts as the empty string, [extra_note] is bound only
    under the three system names. *)
Definition ffmpeg_guidance (system : string) : string * option string :=
  if decide (system = "Windows") then
    ("choco install ffmpeg", Some "Install Chocolatey first (https://chocolatey.org/)")
  else if decide (system = "Darwin") then
    ("brew install ffmpeg", Some "Install Homebrew first (https://brew.sh/)")
  else if decide (system = "Linux") then
    ("sudo apt install ffmpeg  # Ubuntu/Debian" ++ Str.nl ++ "sudo yum install ffmpeg  # CentOS/RHEL",
     Some "Use your distribution's package manager")
  else ("", None).

(** The text of the red panel of [check_ffmpeg]. *)
Definition ffmpeg_not_found (install_cmd extra_note : string) : string :=
  "❌ FFmpeg not found" ++ Str.nl ++ Str.nl ++
  "🛠️ Install using:" ++ Str.nl ++
  "[bold cyan]" ++ install_cmd ++ "[/bold cyan]" ++ Str.nl ++ Str.nl ++
  "💡 Note: " ++ extra_note ++ Str.nl ++ Str.nl ++
  "🔄 After installing FFmpeg, please run this installer again: [bold cyan]python install.py[/bold cyan]".

Definition check_ffmpeg : M bool :=
  import_ "rich" ;;
  try_except
    (subprocess_run ["ffmpeg"; "-version"] ;;
     print (Panel "✅ FFmpeg is already installed" "green") ;;
     ret true)
    (fun e =>
       match e with
       | CalledProcessError _ _ | FileNotFoundError _ =>
           Some (let* colab := is_colab in
                 if colab then
                   subprocess_run ["apt-get"; "update"] ;;
                   subprocess_run ["apt-get"; "install"; "-y"; "ffmpeg"] ;;
                   print (Panel "✅ FFmpeg has been installed" "green") ;;
                   ret true
                 else
                   let '(install_cmd, extra_note) := ffmpeg_guidance (system E) in
                   let* extra_note :=
                     match extra_note with
                     | Some note => ret note
                     | None => raise (UnboundLocalError "extra_note")
                     end in
                   print (PanelFit (ffmpeg_not_found install_cmd extra_note) "red") ;;
                   raise (SystemExit "FFmpeg is required. Please install it and run the installer again."))
       | _ => None
       end).

(** When [import pkg_resources] fails, the [except] clause cannot name
    [pkg_resources.DistributionNotFound]: the local name is unbound. *)
Definition check_package_version (package_name : string) : M (option string) :=
  if importable E "pkg_resources" then
    try_except
      (let* version := call "pkg_resources.get_distribution" (get_distribution E package_name) in
       ret (Some version))
      (fun e => match e with
                | DistributionNotFound _ => Some (ret None)
                | _ => None
                end)
  else raise (UnboundLocalError "pkg_resources").

(** [[r.strip() for r in requirements if r.strip() and not r.startswith('#')]] *)
Definition parse_requirements (content : string) : list string :=
  map Str.strip
      (List.filter (fun r => negb (String.eqb (Str.strip r) "") && negb (Str.startswith r "#"))
                   (Str.splitlines content)).

Definition package_name_of (req : string) : string :=
  if Str.contains "==" req then Str.split_head "==" req
  else if Str.contains ">=" req then Str.split_head ">=" req
  else req.

(** The loop of [check_requirements_satisfied]: False at the first
    requirement whose distribution is not found. *)
Fixpoint all_installed (requirements : list string) : M bool :=
  match requirements with
  | [] => ret true
  | req :: rest =>
      let* version := check_package_version (package_name_of req) in
      match version with
      | None => ret false
      | Some _ => all_installed rest
      end
  end.

(** [except FileNotFoundError: return False] *)
Definition file_not_found_is_false : exn -> option (M bool) :=
  fun e => match e with
           | FileNotFoundError _ => Some (ret false)
           | _ => None
           end.

Definition check_requirements_satisfied : M bool :=
  try_except
    (let* content := open_read "requirements.txt" in
     all_installed (parse_requirements content))
    file_not_found_is_false.

Definition pip_install_r (file : string) : list string :=
  [executable E; "-m"; "pip"; "install"; "-r"; file].

(** The function [install_requirements] defined inside [main]. *)
Definition install_requirements : M unit :=
  try_except
    (let* colab := is_colab in
     if colab then
       let* content := open_read "requirements.txt" in
       let requirements := Str.splitlines content in
       let requirements := List.filter (fun r => negb (Str.startswith r "torch")) requirements in
       open_write "requirements_temp.txt" (Str.join Str.nl requirements) ;;
       subprocess_check_call (pip_install_r "requirements_temp.txt") pip_env ;;
       os_remove "requirements_temp.txt"
     else
       subprocess_check_call (pip_install_r "requirements.txt") pip_env)
    (fun e => match e with
              | CalledProcessError _ _ => Some (print (FailedRequirements e))
              | _ => None
              end).

(** The PyTorch install of the branch of [main] for a local machine. *)
Definition install_torch : M unit :=
  import_ "core.pypi_autochoose" ;;
  call "core.pypi_autochoose.main" (choose_mirror E) ;;
  let* has_gpu := if negb (String.eqb (system E) "Darwin") then check_nvidia_gpu
                  else ret false in
  if has_gpu then
    print (Panel "🎮 NVIDIA GPU detected, installing CUDA version of PyTorch..." "cyan") ;;
    subprocess_check_call
      [executable E; "-m"; "pip"; "install"; "torch==2.0.0"; "torchaudio==2.0.0";
       "--index-url"; "https://download.pytorch.org/whl/cu118"] []
  else
    let system_name := if String.eqb (system E) "Darwin" then "🍎 MacOS"
                       else "💻 No NVIDIA GPU" in
    print (Panel (system_name ++ " detected, installing CPU version of PyTorch... However, it would be extremely slow for transcription.") "cyan") ;;
    subprocess_check_call
      [executable E; "-m"; "pip"; "install"; "torch==2.1.2"; "torchaudio==2.1.2"] [].

(** What [main] prints once the toolchain check has returned, and the launch. *)
Definition finish_and_launch : M unit :=
  print (PanelFit "Installation completed" "bold green") ;;
  print (Text "To start the application, run:") ;;
  print (Text "[bold cyan]streamlit run st.py[/bold cyan]") ;;
  print (Text "[yellow]Note: First startup may take up to 1 minute[/yellow]") ;;
  print (Text (Str.nl ++ "[yellow]If the application fails to start:[/yellow]")) ;;
  print (Text "1. [yellow]Check your network connection[/yellow]") ;;
  print (Text "2. [yellow]Re-run the installer: [bold]python install.py[/bold][/yellow]") ;;
  subprocess_Popen ["streamlit"; "run"; "st.py"].

(** [main] from [install_package("requests", "rich", "ruamel.yaml")] up to
    the PyTorch install: what comes before [install_requirements()]. *)
Definition prepare : M unit :=
  install_package ["requests"; "rich"; "ruamel.yaml"] ;;
  let width := (max_list (map Str.len (Str.splitlines ascii_logo)) + 4)%nat in
  print (WelcomePanel ascii_logo width) ;;
  print (PanelFit "🚀 Starting Installation" "bold magenta") ;;
  let* colab := is_colab in
  if colab then print (Panel "🎮 Running in Google Colab environment" "cyan")
  else install_torch.

(** The full installer path: [main] without its early return. *)
Definition full_install : M unit :=
  prepare ;;
  install_requirements ;;
  check_ffmpeg ;;
  finish_and_launch.

(** The early return of [main] in the hosted runtime. *)
Definition ready_to_use : M unit :=
  print (Panel "✅ All required packages are already installed" "green") ;;
  check_ffmpeg ;;
  print (PanelFit "Ready to use!" "bold green") ;;
  print (Text "To start the application, run:") ;;
  print (Text "[bold cyan]streamlit run st.py[/bold cyan]").

Definition main : M unit :=
  import_ "rich" ;;
  let* colab := is_colab in
  if colab then
    print (Panel "🎮 Running in Google Colab environment" "cyan") ;;
    let* satisfied := check_requirements_satisfied in
    if satisfied then ready_to_use else full_install
  else full_install.

End Script.

(** The exit status of [python install.py]: 0 when [main] returns; an
    exception that leaves [main] ends the interpreter with status 1
    (SystemExit carries a message, not a number). *)
Definition exit_code (r : run unit) : Z :=
  match value r with
  | Ret _ => 0
  | Raise _ => 1
  end.

(** ** Reading the log *)

(** [python -m pip install ...] *)
Definition is_pip_install (ev : event) : bool :=
  match ev with
  | EvRun (_ :: "-m" :: "pip" :: "install" :: _) _ => true
  | _ => false
  end.

(** [apt-get install ...] *)
Definition is_apt_install (ev : event) : bool :=
  match ev with
  | EvRun (prog :: "install" :: _) _ => String.eqb prog "apt-get"
  | _ => false
  end.

(** An install by a package manager, pip or apt-get. *)
Definition is_package_install (ev : event) : bool :=
  is_pip_install ev || is_apt_install ev.

(** The pip install of the requirements list: the only child process the
    script starts with variables of its own. *)
Definition is_requirements_install (ev : event) : bool :=
  match ev with
  | EvRun _ (_ :: _) => true
  | _ => false
  end.

(** The function [m] never causes an event that [P] accepts. *)
Definition silent (P : event -> bool) {A} (m : M A) : Prop :=
  forall d, Forall (fun ev => P ev = false) (log (m d)).

(** How many events of [l] the test [P] accepts. *)
Definition attempts (P : event -> bool) (l : list event) : nat :=
  List.length (List.filter P l).

(** What the hosted branch of [install_requirements] writes to
    requirements_temp.txt. *)
Definition temp_content (content : string) : string :=
  Str.join Str.nl
    (List.filter (fun r => negb (Str.startswith r "torch")) (Str.splitlines content)).

Definition ffmpeg_probe : list string := ["ffmpeg"; "-version"].

(** The probe [ffmpeg -version] fails in the way [check_ffmpeg] handles:
    no such executable, or a non-zero return code. *)
Definition ffmpeg_missing (E : Env) : bool :=
  match spawn E ffmpeg_probe with
  | Exited rc => negb (rc =? 0)%Z
  | NoSuchFile => true
  | CannotStart => false
  end.

Definition hosted (E : Env) : bool := importable E "google.colab".

(** [p] is a prefix of [s], as a proposition. *)
Definition has_prefix (p s : string) : Prop := exists rest, s = p ++ rest.

(** The test of the script on a line of requirements.txt, as the list
    comprehension of [check_requirements_satisfied] writes it: the line is
    not blank once stripped, and the line as read, white space included,
    does not begin with [#]. *)
Definition valid_line (r : string) : Prop :=
  Str.strip r <> "" /\ ~ has_prefix "#" r.

(** A comment line of a requirements file, as pip reads the file: the
    first character that is not white space is [#]. *)
Definition comment_line (r : string) : Prop := has_prefix "#" (Str.strip r).

(** A requirement line of a requirements file: neither blank nor a
    comment. *)
Definition requirement_line (r : string) : Prop :=
  Str.strip r <> "" /\ ~ comment_line r.

#[global] Instance has_prefix_dec (p s : string) : Decision (has_prefix p s).
Proof.
  refine (cast_if (decide (String.prefix p s = true))).
  - revert s e. induction p as [|a p IH]; intros s H.
    + by exists s.
    + destruct s as [|b s]; [discriminate|]. simpl in H.
      destruct (ascii_dec a b) as [->|]; [|discriminate].
      destruct (IH s H) as [rest ->]. by exists rest.
  - intros [rest ->]. apply n. clear n.
    induction p as [|a p IH]; simpl; [by destruct rest|].
    by destruct (ascii_dec a a).
Defined.

#[global] Instance valid_line_dec (r : string) : Decision (valid_line r).
Proof. unfold valid_line. apply _. Defined.

#[global] Instance requirement_line_dec (r : string) : Decision (requirement_line r).
Proof. unfold requirement_line, comment_line. apply _. Defined.


Definition SystemExit_ffmpeg : exn :=
  SystemExit "FFmpeg is required. Please install it and run the installer again.".

(** ** Worlds to run the script in *)

Definition python : string := "/usr/bin/python3".

(** Everything is there and every command succeeds; no GPU. *)
Definition colab_env : Env :=
  {| executable := python;
     importable := fun _ => true;
     system := "Linux";
     spawn := fun _ => Exited 0;
     get_distribution := fun _ => Ret "1.0";
     choose_mirror := Ret tt;
     nvmlInit := Ret tt;
     nvmlDeviceGetCount := Ret 0%nat;
     nvmlDeviceGetHandleByIndex := fun i => Ret i;
     nvmlDeviceGetName := fun _ => Ret "NVIDIA T4";
     nvmlShutdown := Ret tt |}.

Definition with_spawn (E : Env) (f : list string -> proc_outcome) : Env :=
  {| executable := executable E; importable := importable E; system := system E;
     spawn := f;
     get_distribution := get_distribution E; choose_mirror := choose_mirror E;
     nvmlInit := nvmlInit E; nvmlDeviceGetCount := nvmlDeviceGetCount E;
     nvmlDeviceGetHandleByIndex := nvmlDeviceGetHandleByIndex E;
     nvmlDeviceGetName := nvmlDeviceGetName E; nvmlShutdown := nvmlShutdown E |}.

Definition with_importable (E : Env) (f : string -> bool) : Env :=
  {| executable := executable E; importable := f; system := system E;
     spawn := spawn E;
     get_distribution := get_distribution E; choose_mirror := choose_mirror E;
     nvmlInit := nvmlInit E; nvmlDeviceGetCount := nvmlDeviceGetCount E;
     nvmlDeviceGetHandleByIndex := nvmlDeviceGetHandleByIndex E;
     nvmlDeviceGetName := nvmlDeviceGetName E; nvmlShutdown := nvmlShutdown E |}.

Definition with_nvml (E : Env) (init : result unit) (count : result nat)
    (shutdown : result unit) : Env :=
  {| executable := executable E; importable := importable E; system := system E;
     spawn := spawn E;
     get_distribution := get_distribution E; choose_mirror := choose_mirror E;
     nvmlInit := init; nvmlDeviceGetCount := count;
     nvmlDeviceGetHandleByIndex := nvmlDeviceGetHandleByIndex E;
     nvmlDeviceGetName := nvmlDeviceGetName E; nvmlShutdown := shutdown |}.

(** [argv] behaves as [o], every other command as in [f]. *)
Definition except_for (argv : list string) (o : proc_outcome)
    (f : list string -> proc_outcome) : list string -> proc_outcome :=
  fun a => if decide (a = argv) then o else f a.

(** A local Linux machine: no google.colab module. *)
Definition local_env : Env :=
  with_importable colab_env (fun m => negb (String.eqb m "google.colab")).

(** A local machine without ffmpeg. *)
Definition local_no_ffmpeg : Env :=
  with_spawn local_env (except_for ffmpeg_probe NoSuchFile (spawn local_env)).

(** A local machine where pynvml can be neither installed nor imported. *)
Definition local_no_pynvml : Env :=
  with_importable
    (with_spawn local_env
       (except_for [python; "-m"; "pip"; "install"; "pynvml"] (Exited 1) (spawn local_env)))
    (fun m => negb (String.eqb m "google.colab") && negb (String.eqb m "pynvml")).

(** A local machine without the NVIDIA driver.  pynvml cannot load the
    driver library: [nvmlInit] raises NVMLError (library not found, code
    12), and [nvmlShutdown], called on a library that was never
    initialised, raises NVMLError as well (uninitialised, code 1). *)
Definition local_no_driver_shutdown_raises : Env :=
  with_nvml local_env (Raise (NVMLError 12)) (Ret 0%nat) (Raise (NVMLError 1)).

(** The hosted runtime without ffmpeg. *)
Definition colab_no_ffmpeg : Env :=
  with_spawn colab_env (except_for ffmpeg_probe NoSuchFile (spawn colab_env)).

(** The hosted runtime without ffmpeg, where [apt-get update] fails. *)
Definition colab_apt_update_fails : Env :=
  with_spawn colab_env
    (except_for ["apt-get"; "update"] (Exited 100)
       (except_for ffmpeg_probe NoSuchFile (spawn colab_env))).

Definition with_distributions (E : Env) (f : string -> result string) : Env :=
  {| executable := executable E; importable := importable E; system := system E;
     spawn := spawn E;
     get_distribution := f; choose_mirror := choose_mirror E;
     nvmlInit := nvmlInit E; nvmlDeviceGetCount := nvmlDeviceGetCount E;
     nvmlDeviceGetHandleByIndex := nvmlDeviceGetHandleByIndex E;
     nvmlDeviceGetName := nvmlDeviceGetName E; nvmlShutdown := nvmlShutdown E |}.

(** A fresh hosted runtime, none of the requirements installed yet, where
    the pip install of the requirements fails. *)
Definition colab_pip_r_fails : Env :=
  with_distributions
    (with_spawn colab_env
       (except_for [python; "-m"; "pip"; "install"; "-r"; "requirements_temp.txt"] (Exited 1)
          (spawn colab_env)))
    (fun name => Raise (DistributionNotFound name)).

(** A local machine where the pip install of the requirements fails. *)
Definition local_pip_r_fails : Env :=
  with_spawn local_env
    (except_for [python; "-m"; "pip"; "install"; "-r"; "requirements.txt"] (Exited 1)
       (spawn local_env)).

(** The hosted runtime, ffmpeg present, where the first pip install fails. *)
Definition colab_first_pip_fails : Env :=
  with_spawn colab_env
    (except_for [python; "-m"; "pip"; "install"; "requests"; "rich"; "ruamel.yaml"] (Exited 1)
       (spawn colab_env)).

Definition requirements_txt : string :=
  "# core" ++ Str.nl ++
  "torch==2.0.0" ++ Str.nl ++
  "torchaudio==2.0.0" ++ Str.nl ++
  Str.nl ++
  "numpy>=1.24" ++ Str.nl ++
  "  requests  " ++ Str.nl.

(** A requirements file with an indented comment. *)
Definition indented_comment_txt : string :=
  "  # note" ++ Str.nl ++
  "numpy" ++ Str.nl.

Definition empty_disk : gmap string string := ∅.

Definition project_disk : gmap string string :=
  <["requirements.txt" := requirements_txt]> ∅.

(** ** Files and steps of a run *)

(** The function [m] leaves the files as they are. *)
Definition keeps_disk {A} (m : M A) : Prop := forall d, disk (m d) = d.

(** A write or a removal of a file by the script itself. *)
Definition is_file_change (ev : event) : bool :=
  match ev with
  | EvWrite _ _ | EvRemove _ => true
  | _ => false
  end.

(** A write or a removal, by the script itself, of a file other than
    [path]. *)
Definition changes_other_file (path : string) (ev : event) : bool :=
  match ev with
  | EvWrite p _ | EvRemove p => negb (String.eqb p path)
  | _ => false
  end.

(** [python -m pip install torch==... ...] *)
Definition is_torch_install (ev : event) : bool :=
  match ev with
  | EvRun (_ :: "-m" :: "pip" :: "install" :: package :: _) _ => String.prefix "torch==" package
  | _ => false
  end.

(** A step of the GPU probe: the install of pynvml or a call into it. *)
Definition is_gpu_probe (ev : event) : bool :=
  match ev with
  | EvRun (_ :: "-m" :: "pip" :: "install" :: "pynvml" :: _) _ => true
  | EvCall name => String.prefix "pynvml." name
  | _ => false
  end.

(** The call that chooses a package mirror. *)
Definition is_mirror_choice (ev : event) : bool :=
  match ev with
  | EvCall name => String.eqb name "core.pypi_autochoose.main"
  | _ => false
  end.

(** A step that [main] keeps for a local machine. *)
Definition is_local_step (ev : event) : bool :=
  is_torch_install ev || is_gpu_probe ev || is_mirror_choice ev.

(** A child process, waited for or not. *)
Definition is_child_process (ev : event) : bool :=
  match ev with
  | EvRun _ _ | EvPopen _ => true
  | _ => false
  end.

(** What the console received, in order. *)
Definition printed (l : list event) : list output :=
  omap (fun ev => match ev with EvPrint o => Some o | _ => None end) l.

(** The place of a child process in the script, by its arguments (the
    program is not looked at: the interpreter of the pip commands is
    whatever sys.executable is): 1 the install of requests, rich and
    ruamel.yaml, 2 the install of pynvml, 3 the install of torch, 4 the
    install of the requirements, 5 the ffmpeg probe, 6 and 7 the two
    apt-get commands, 8 the launch.  Any other event has no place. *)
Definition step_rank (ev : event) : option nat :=
  match ev with
  | EvRun (_ :: args) _ =>
      match args with
      | "-m" :: "pip" :: "install" :: "requests" :: _ => Some 1%nat
      | "-m" :: "pip" :: "install" :: "pynvml" :: _ => Some 2%nat
      | "-m" :: "pip" :: "install" :: "torch==2.0.0" :: _ => Some 3%nat
      | "-m" :: "pip" :: "install" :: "torch==2.1.2" :: _ => Some 3%nat
      | "-m" :: "pip" :: "install" :: "-r" :: _ => Some 4%nat
      | ["-version"] => Some 5%nat
      | ["update"] => Some 6%nat
      | "install" :: _ => Some 7%nat
      | _ => None
      end
  | EvPopen ("streamlit" :: _) => Some 8%nat
  | _ => None
  end.

(** The places of the child processes of a log, in the order of the log. *)
Definition ranks (l : list event) : list nat := omap step_rank l.

(** A child process that has no place in the script. *)
Definition is_stray_process (ev : event) : bool :=
  is_child_process ev && negb (bool_decide (is_Some (step_rank ev))).

(** The child processes of [m] come in the order of their places, each
    place at most once, all places from [lo] up to [hi] excluded. *)
Definition in_order (lo hi : nat) {A} (m : M A) : Prop :=
  forall d, StronglySorted lt (ranks (log (m d)))
            /\ Forall (fun r => (lo <= r < hi)%nat) (ranks (log (m d))).

(** The distribution that [check_requirements_satisfied] looks up for
    [req] is found. *)
Definition installed (E : Env) (req : string) : bool :=
  match get_distribution E (package_name_of req) with
  | Ret _ => true
  | Raise _ => false
  end.

(** The lookup for [req] gives a version or DistributionNotFound, no
    other exception. *)
Definition lookup_answers (E : Env) (req : string) : Prop :=
  match get_distribution E (package_name_of req) with
  | Ret _ => True
  | Raise (DistributionNotFound _) => True
  | Raise _ => False
  end.

(** [c] occurs in [s]. *)
Fixpoint has_char (c : ascii) (s : string) : bool :=
  match s with
  | EmptyString => false
  | String a s' => Ascii.eqb a c || has_char c s'
  end.

(** No character of [s] is a line boundary. *)
Fixpoint one_line (s : string) : bool :=
  match s with
  | EmptyString => true
  | String c s' => negb (Str.islinebreak c) && one_line s'
  end.

(** [lines] without its last element when that is the empty string: what
    [splitlines] gives back of lines joined by newlines. *)
Fixpoint drop_last_blank (lines : list string) : list string :=
  match lines with
  | [] => []
  | [l] => if String.eqb l "" then [] else [l]
  | l :: rest => l :: drop_last_blank rest
  end.

Definition with_system (E : Env) (name : string) : Env :=
  {| executable := executable E; importable := importable E; system := name;
     spawn := spawn E;
     get_distribution := get_distribution E; choose_mirror := choose_mirror E;
     nvmlInit := nvmlInit E; nvmlDeviceGetCount := nvmlDeviceGetCount E;
     nvmlDeviceGetHandleByIndex := nvmlDeviceGetHandleByIndex E;
     nvmlDeviceGetName := nvmlDeviceGetName E; nvmlShutdown := nvmlShutdown E |}.

(** A FreeBSD machine without ffmpeg. *)
Definition freebsd_no_ffmpeg : Env := with_system local_no_ffmpeg "FreeBSD".

(** A Mac. *)
Definition mac_env : Env := with_system local_env "Darwin".

(** A local machine with two GPUs. *)
Definition local_two_gpus : Env :=
  with_nvml local_env (Ret tt) (Ret 2%nat) (Ret tt).

(** A local machine where the ffmpeg executable cannot be started. *)
Definition local_ffmpeg_not_executable : Env :=
  with_spawn local_env (except_for ffmpeg_probe CannotStart (spawn local_env)).

(** The hosted runtime without pkg_resources. *)
Definition colab_no_pkg_resources : Env :=
  with_importable colab_env (fun m => negb (String.eqb m "pkg_resources")).

(** The hosted runtime where numpy is not installed. *)
Definition colab_no_numpy : Env :=
  with_distributions colab_env
    (fun name => if String.eqb name "numpy" then Raise (DistributionNotFound name)
                 else Ret "1.0").

(** The hosted runtime where the lookup of numpy finds another version
    than the one asked for and raises VersionConflict. *)
Definition colab_numpy_conflict : Env :=
  with_distributions colab_env
    (fun name => if String.eqb name "numpy" then Raise (OtherError "VersionConflict")
                 else Ret "1.0").

(** A machine without rich. *)
Definition local_no_rich : Env :=
  with_importable colab_env
    (fun m => negb (String.eqb m "google.colab") && negb (String.eqb m "rich")).

Definition comments_only_txt : string :=
  "# nothing yet" ++ Str.nl ++ "   " ++ Str.nl.

Definition comments_only_disk : gmap string string :=
  <["requirements.txt" := comments_only_txt]> ∅.

(** * Properties *)

Open Scope list_scope.

(** ** Laws of the combinators *)

Section Laws.

Context {A B : Type}.
Implicit Types (m : M A) (k : A -> M B) (d : gmap string string).

Lemma value_bind m k d :
  value (bind m k d) =
  match value (m d) with
  | Ret a => value (k a (disk (m d)))
  | Raise e => Raise e
  end.
Proof. unfold bind. destruct (value (m d)); reflexivity. Qed.

Lemma log_bind m k d :
  log (bind m k d) =
  log (m d) ++ match value (m d) with
               | Ret a => log (k a (disk (m d)))
               | Raise _ => []
               end.
Proof. unfold bind. destruct (value (m d)); simpl; [reflexivity | by rewrite app_nil_r]. Qed.

(** A step that returns [a] and leaves no trace can be skipped. *)
Lemma bind_pure m k d a : m d = Run (Ret a) d [] -> bind m k d = k a d.
Proof. intros H. unfold bind. rewrite H. simpl. by destruct (k a d). Qed.

End Laws.

Lemma value_try_except {A} (body : M A) h d :
  value (try_except body h d) =
  match value (body d) with
  | Ret a => Ret a
  | Raise e => match h e with
               | Some handler => value (handler (disk (body d)))
               | None => Raise e
               end
  end.
Proof.
  unfold try_except. destruct (value (body d)) as [a|e] eqn:Hv; [done|].
  by destruct (h e).
Qed.

Lemma log_try_except {A} (body : M A) h d :
  log (try_except body h d) =
  log (body d) ++ match value (body d) with
                  | Ret _ => []
                  | Raise e => match h e with
                               | Some handler => log (handler (disk (body d)))
                               | None => []
                               end
                  end.
Proof.
  unfold try_except. destruct (value (body d)) as [a|e]; [by rewrite app_nil_r|].
  destruct (h e); [done | by rewrite app_nil_r].
Qed.

Lemma value_try_finally {A} (body : M A) final d :
  value (try_finally body final d) =
  match value (final (disk (body d))) with
  | Ret _ => value (body d)
  | Raise e => Raise e
  end.
Proof. reflexivity. Qed.

Lemma log_try_finally {A} (body : M A) final d :
  log (try_finally body final d) = log (body d) ++ log (final (disk (body d))).
Proof. reflexivity. Qed.

(** ** Events that a function never causes *)

Section Silent.

Variable P : event -> bool.

Lemma silent_ret {A} (a : A) : silent P (ret a).
Proof. intros d. constructor. Qed.

Lemma silent_raise {A} e : silent P (@raise A e).
Proof. intros d. constructor. Qed.

Lemma silent_lift {A} (r : result A) : silent P (lift r).
Proof. intros d. constructor. Qed.

Lemma silent_emit ev : P ev = false -> silent P (emit ev).
Proof. intros H d. by repeat constructor. Qed.

Lemma silent_bind {A B} (m : M A) (k : A -> M B) :
  silent P m -> (forall a, silent P (k a)) -> silent P (bind m k).
Proof.
  intros Hm Hk d. rewrite log_bind. apply Forall_app. split; [apply Hm|].
  destruct (value (m d)); [apply Hk | constructor].
Qed.

Lemma silent_try_except {A} (body : M A) h :
  silent P body -> (forall e handler, h e = Some handler -> silent P handler) ->
  silent P (try_except body h).
Proof.
  intros Hb Hh d. rewrite log_try_except. apply Forall_app. split; [apply Hb|].
  destruct (value (body d)) as [a|e]; [constructor|].
  destruct (h e) as [handler|] eqn:He; [by eapply Hh | constructor].
Qed.

Lemma silent_try_finally {A} (body : M A) final :
  silent P body -> silent P final -> silent P (try_finally body final).
Proof.
  intros Hb Hf d. rewrite log_try_finally. apply Forall_app. split; [apply Hb | apply Hf].
Qed.

Lemma silent_for_each {A} (l : list A) body :
  (forall x, silent P (body x)) -> silent P (for_each l body).
Proof.
  intros Hb. induction l as [|x l IH]; simpl; [apply silent_ret|].
  apply silent_bind; [apply Hb | intros _; apply IH].
Qed.

Lemma silent_open_read path : silent P (open_read path).
Proof. intros d. unfold open_read. destruct (d !! path); constructor. Qed.

Lemma silent_open_write path content :
  P (EvWrite path content) = false -> silent P (open_write path content).
Proof. intros H d. by repeat constructor. Qed.

Lemma silent_os_remove path : P (EvRemove path) = false -> silent P (os_remove path).
Proof. intros H d. unfold os_remove. destruct (d !! path); by repeat constructor. Qed.

Variable E : Env.

Lemma silent_import m : silent P (import_ E m).
Proof. unfold import_. destruct (importable E m); [apply silent_ret | apply silent_raise]. Qed.

Lemma silent_call {A} name (answer : result A) :
  P (EvCall name) = false -> silent P (call name answer).
Proof. intros H. apply silent_bind; [by apply silent_emit | intros _; apply silent_lift]. Qed.

Lemma silent_checked_process argv env :
  P (EvRun argv env) = false -> silent P (checked_process E argv env).
Proof. intros H. apply silent_bind; [by apply silent_emit | intros _; apply silent_lift]. Qed.

Lemma silent_Popen argv : P (EvPopen argv) = false -> silent P (subprocess_Popen E argv).
Proof. intros H. apply silent_bind; [by apply silent_emit | intros _; apply silent_lift]. Qed.

Lemma silent_is_colab : silent P (is_colab E).
Proof.
  apply silent_try_except.
  - apply silent_bind; [apply silent_import | intros _; apply silent_ret].
  - intros [] handler; intros [= <-]. apply silent_ret.
Qed.

End Silent.

(** [is_colab] answers from the world and leaves no trace. *)
Lemma is_colab_run E d : is_colab E d = Run (Ret (hosted E)) d [].
Proof.
  unfold is_colab, hosted, try_except, bind, import_, ret, raise.
  destruct (importable E "google.colab"); reflexivity.
Qed.

Lemma bind_is_colab {B} E (k : bool -> M B) d : bind (is_colab E) k d = k (hosted E) d.
Proof. apply bind_pure, is_colab_run. Qed.

Lemma silent_bind_is_colab P {B} E (k : bool -> M B) :
  silent P (k (hosted E)) -> silent P (bind (is_colab E) k).
Proof. intros H d. rewrite bind_is_colab. apply H. Qed.

(** ** Strings *)

Lemma prefix_has_prefix p s : String.prefix p s = true <-> has_prefix p s.
Proof.
  split.
  - revert s. induction p as [|a p IH]; intros s H; [by exists s|].
    destruct s as [|b s]; [discriminate|]. simpl in H.
    destruct (ascii_dec a b) as [->|]; [|discriminate].
    destruct (IH s H) as [rest ->]. by exists rest.
  - intros [rest ->]. induction p as [|a p IH]; simpl; [by destruct rest|].
    by destruct (ascii_dec a a).
Qed.

Lemma startswith_false s p : Str.startswith s p = false <-> ~ has_prefix p s.
Proof.
  unfold Str.startswith. rewrite <- prefix_has_prefix.
  destruct (String.prefix p s); split; congruence.
Qed.

(** The boolean filter of the script and the filter by a proposition agree. *)
Lemma filter_bool_prop {A} (f : A -> bool) (P : A -> Prop) `{forall x, Decision (P x)} l :
  (forall x, f x = true <-> P x) -> List.filter f l = filter P l.
Proof.
  intros Hf. induction l as [|x l IH]; [done|]. simpl. rewrite filter_cons, IH.
  destruct (f x) eqn:Hx; destruct (decide (P x)) as [HP|HP]; try done.
  - exfalso. by apply HP, Hf.
  - apply Hf in HP. congruence.
Qed.

Lemma rstrip_nonspace c s : Str.isspace c = false -> Str.rstrip (String c s) <> "".
Proof. intros Hc. simpl. destruct (Str.rstrip s); [by rewrite Hc | done]. Qed.

(** A line that starts with a character that is not white space is not blank. *)
Lemma strip_nonspace c s : Str.isspace c = false -> Str.strip (String c s) <> "".
Proof. intros Hc. unfold Str.strip. simpl. rewrite Hc. by apply rstrip_nonspace. Qed.

Lemma valid_line_test r :
  negb (String.eqb (Str.strip r) "") && negb (Str.startswith r "#") = true <-> valid_line r.
Proof.
  unfold valid_line. rewrite andb_true_iff, !negb_true_iff, String.eqb_neq.
  by rewrite startswith_false.
Qed.

Lemma parse_requirements_valid content :
  parse_requirements content = map Str.strip (filter valid_line (Str.splitlines content)).
Proof.
  unfold parse_requirements. f_equal. apply filter_bool_prop, valid_line_test.
Qed.

(** ** Runs of the functions of the script *)

Lemma after_nil {A} (r : run A) : after [] r = r.
Proof. by destruct r. Qed.

Lemma value_after {A} l (r : run A) : value (after l r) = value r.
Proof. reflexivity. Qed.

Lemma log_after {A} l (r : run A) : log (after l r) = l ++ log r.
Proof. reflexivity. Qed.

Lemma disk_after {A} l (r : run A) : disk (after l r) = disk r.
Proof. reflexivity. Qed.

Lemma bind_run {A B} (m : M A) (k : A -> M B) d :
  bind m k d =
  match m d with
  | Run (Ret a) d' l => after l (k a d')
  | Run (Raise e) d' l => Run (Raise e) d' l
  end.
Proof. unfold bind. by destruct (m d) as [[a|e] d' l]. Qed.

Lemma try_except_run {A} (body : M A) h d :
  try_except body h d =
  match body d with
  | Run (Ret a) d' l => Run (Ret a) d' l
  | Run (Raise e) d' l =>
      match h e with
      | Some handler => after l (handler d')
      | None => Run (Raise e) d' l
      end
  end.
Proof. unfold try_except. destruct (body d) as [[a|e] d' l]; simpl; [done|]. by destruct (h e). Qed.

Lemma checked_process_run E argv env d :
  checked_process E argv env d = Run (checked argv (spawn E argv)) d [EvRun argv env].
Proof. reflexivity. Qed.

Lemma call_run {A} name (answer : result A) d :
  call name answer d = Run answer d [EvCall name].
Proof. reflexivity. Qed.

Lemma print_run o d : print o d = Run (Ret tt) d [EvPrint o].
Proof. reflexivity. Qed.

Lemma checked_ok argv o : checked argv o = Ret tt <-> o = Exited 0.
Proof.
  split; [|by intros ->].
  destruct o as [rc| |]; simpl; try done. case_decide; [by subst | done].
Qed.

Lemma checked_nonzero argv rc :
  rc <> 0%Z -> checked argv (Exited rc) = Raise (CalledProcessError argv rc).
Proof. intros H. simpl. by case_decide. Qed.

(** The hosted branch of [install_requirements], by the outcome of pip:
    the temporary file is removed only when pip succeeds. *)
Lemma install_requirements_hosted E d content :
  hosted E = true -> d !! "requirements.txt" = Some content ->
  let argv := pip_install_r E "requirements_temp.txt" in
  let d1 := <["requirements_temp.txt" := temp_content content]> d in
  let written := [EvWrite "requirements_temp.txt" (temp_content content); EvRun argv pip_env] in
  install_requirements E d =
  match checked argv (spawn E argv) with
  | Ret _ => Run (Ret tt) (delete "requirements_temp.txt" d1)
                 (written ++ [EvRemove "requirements_temp.txt"])
  | Raise (CalledProcessError cmd rc) =>
      Run (Ret tt) d1 (written ++ [EvPrint (FailedRequirements (CalledProcessError cmd rc))])
  | Raise e => Run (Raise e) d1 written
  end.
Proof.
  intros Hh Hd argv d1 written.
  unfold install_requirements. rewrite try_except_run, bind_is_colab, Hh.
  rewrite bind_run. unfold open_read at 1. rewrite Hd. cbv beta iota.
  rewrite bind_run. unfold open_write at 1. cbv beta iota.
  fold (temp_content content). fold d1.
  rewrite bind_run. unfold subprocess_check_call. rewrite checked_process_run. fold argv.
  destruct (checked argv (spawn E argv)) as [[]|e] eqn:Hc.
  - unfold os_remove. unfold d1 at 1. rewrite lookup_insert_eq. reflexivity.
  - destruct e; reflexivity.
Qed.

(** The local branch of [install_requirements]. *)
Lemma install_requirements_local E d :
  hosted E = false ->
  let argv := pip_install_r E "requirements.txt" in
  install_requirements E d =
  match checked argv (spawn E argv) with
  | Ret _ => Run (Ret tt) d [EvRun argv pip_env]
  | Raise (CalledProcessError cmd rc) =>
      Run (Ret tt) d [EvRun argv pip_env; EvPrint (FailedRequirements (CalledProcessError cmd rc))]
  | Raise e => Run (Raise e) d [EvRun argv pip_env]
  end.
Proof.
  intros Hh argv.
  unfold install_requirements. rewrite try_except_run, bind_is_colab, Hh.
  unfold subprocess_check_call. rewrite checked_process_run. fold argv.
  destruct (checked argv (spawn E argv)) as [[]|e]; [done|].
  destruct e; reflexivity.
Qed.

(** Without requirements.txt the hosted branch stops at [open]. *)
Lemma install_requirements_hosted_no_file E d :
  hosted E = true -> d !! "requirements.txt" = None ->
  install_requirements E d = Run (Raise (FileNotFoundError "requirements.txt")) d [].
Proof.
  intros Hh Hd. unfold install_requirements. rewrite try_except_run, bind_is_colab, Hh.
  rewrite bind_run. unfold open_read at 1. rewrite Hd. reflexivity.
Qed.

(** The probe fails in the way the [except] clause of [check_ffmpeg] handles. *)
Lemma ffmpeg_missing_checked E :
  ffmpeg_missing E = true ->
  (exists rc, checked ffmpeg_probe (spawn E ffmpeg_probe) = Raise (CalledProcessError ffmpeg_probe rc))
  \/ checked ffmpeg_probe (spawn E ffmpeg_probe) = Raise (FileNotFoundError "ffmpeg").
Proof.
  unfold ffmpeg_missing. destruct (spawn E ffmpeg_probe) as [rc| |]; intros H; [|by right|done].
  left. exists rc. apply checked_nonzero. intros ->. done.
Qed.

Lemma import_ok E m d : importable E m = true -> import_ E m d = Run (Ret tt) d [].
Proof. intros H. unfold import_. by rewrite H. Qed.

Lemma import_fails E m d :
  importable E m = false -> import_ E m d = Run (Raise (ImportError m)) d [].
Proof. intros H. unfold import_. by rewrite H. Qed.

Lemma check_ffmpeg_no_rich E d :
  importable E "rich" = false -> check_ffmpeg E d = Run (Raise (ImportError "rich")) d [].
Proof. intros H. unfold check_ffmpeg. by rewrite bind_run, import_fails. Qed.

Lemma check_ffmpeg_present E d :
  importable E "rich" = true -> spawn E ffmpeg_probe = Exited 0 ->
  check_ffmpeg E d =
  Run (Ret true) d [EvRun ffmpeg_probe []; EvPrint (Panel "✅ FFmpeg is already installed" "green")].
Proof.
  intros Hr Hp. unfold check_ffmpeg. rewrite bind_run, import_ok by done.
  cbv beta iota. rewrite after_nil, try_except_run, bind_run.
  unfold subprocess_run at 1. rewrite checked_process_run. fold ffmpeg_probe. rewrite Hp.
  reflexivity.
Qed.

(** In the hosted runtime a missing ffmpeg is installed with apt-get; the
    check returns True without probing again. *)
Lemma check_ffmpeg_hosted_missing E d :
  importable E "rich" = true -> hosted E = true -> ffmpeg_missing E = true ->
  let update := ["apt-get"; "update"] in
  let install := ["apt-get"; "install"; "-y"; "ffmpeg"] in
  check_ffmpeg E d =
  match checked update (spawn E update) with
  | Raise e => Run (Raise e) d [EvRun ffmpeg_probe []; EvRun update []]
  | Ret _ =>
      match checked install (spawn E install) with
      | Raise e => Run (Raise e) d [EvRun ffmpeg_probe []; EvRun update []; EvRun install []]
      | Ret _ => Run (Ret true) d [EvRun ffmpeg_probe []; EvRun update []; EvRun install [];
                                  EvPrint (Panel "✅ FFmpeg has been installed" "green")]
      end
  end.
Proof.
  intros Hr Hh Hm update install. unfold check_ffmpeg. rewrite bind_run, import_ok by done.
  cbv beta iota. rewrite after_nil, try_except_run, bind_run.
  unfold subprocess_run at 1. rewrite checked_process_run. fold ffmpeg_probe.
  destruct (ffmpeg_missing_checked E Hm) as [[rc ->] | ->]; cbv beta iota;
    rewrite bind_is_colab, Hh, bind_run; unfold subprocess_run at 1;
    rewrite checked_process_run; fold update;
    (destruct (checked update (spawn E update)) as [[]|e]; [|reflexivity]);
    cbv beta iota; rewrite bind_run; unfold subprocess_run at 1;
    rewrite checked_process_run; fold install;
    (destruct (checked install (spawn E install)) as [[]|e]; reflexivity).
Qed.

(** On a local machine a missing ffmpeg ends the toolchain check with
    SystemExit once the guidance is printed; under a system name other
    than the three the script knows, the guidance cannot be formatted. *)
Lemma check_ffmpeg_local_missing E d :
  importable E "rich" = true -> hosted E = false -> ffmpeg_missing E = true ->
  check_ffmpeg E d =
  match ffmpeg_guidance (system E) with
  | (install_cmd, Some extra_note) =>
      Run (Raise SystemExit_ffmpeg) d
          [EvRun ffmpeg_probe []; EvPrint (PanelFit (ffmpeg_not_found install_cmd extra_note) "red")]
  | (_, None) => Run (Raise (UnboundLocalError "extra_note")) d [EvRun ffmpeg_probe []]
  end.
Proof.
  intros Hr Hh Hm. unfold check_ffmpeg. rewrite bind_run, import_ok by done.
  cbv beta iota. rewrite after_nil, try_except_run, bind_run.
  unfold subprocess_run at 1. rewrite checked_process_run. fold ffmpeg_probe.
  destruct (ffmpeg_missing_checked E Hm) as [[rc ->] | ->]; cbv beta iota;
    rewrite bind_is_colab, Hh; destruct (ffmpeg_guidance (system E)) as [cmd [note|]];
    reflexivity.
Qed.

(** Whatever the world, a local machine without ffmpeg never gets a
    value out of the toolchain check. *)
Lemma check_ffmpeg_local_raises E d :
  hosted E = false -> ffmpeg_missing E = true -> exists e, value (check_ffmpeg E d) = Raise e.
Proof.
  intros Hh Hm. destruct (importable E "rich") eqn:Hr.
  - rewrite check_ffmpeg_local_missing by done.
    destruct (ffmpeg_guidance (system E)) as [cmd [note|]]; eauto.
  - rewrite check_ffmpeg_no_rich by done. eauto.
Qed.

(** ** What the functions of the script never do *)

Ltac handler_cases :=
  let e := fresh "e" in
  let handler := fresh "handler" in
  let He := fresh "He" in
  intros e handler He; destruct e; try discriminate He; injection He as <-.

Ltac silence :=
  repeat first
    [ match goal with
      | H : hosted ?E = _ |- silent _ (bind (is_colab ?E) _) =>
          apply silent_bind_is_colab; rewrite H
      end
    | apply silent_ret | apply silent_raise | apply silent_lift
    | apply silent_import | apply silent_is_colab | apply silent_open_read
    | apply silent_emit; reflexivity
    | apply silent_call; reflexivity
    | apply silent_checked_process; reflexivity
    | apply silent_Popen; reflexivity
    | apply silent_open_write; reflexivity
    | apply silent_os_remove; reflexivity
    | apply silent_bind; [|intros ?]
    | apply silent_try_finally
    | apply silent_for_each; intros ?
    | apply silent_try_except; [|handler_cases]
    | match goal with
      | |- silent _ (if ?b then _ else _) => destruct b
      | |- silent _ (match ?x with _ => _ end) => destruct x
      end ].

Section Never.

Variable P : event -> bool.
Variable E : Env.

Hypothesis no_print : forall o, P (EvPrint o) = false.
Hypothesis no_call : forall name, P (EvCall name) = false.
Hypothesis no_popen : forall argv, P (EvPopen argv) = false.

Lemma silent_print o : silent P (print o).
Proof. apply silent_emit, no_print. Qed.

Lemma silent_library_call {A} name (answer : result A) : silent P (call name answer).
Proof. apply silent_call, no_call. Qed.

Lemma silent_check_package_version name : silent P (check_package_version E name).
Proof.
  unfold check_package_version. destruct (importable E "pkg_resources"); [|apply silent_raise].
  apply silent_try_except; [|handler_cases; apply silent_ret].
  apply silent_bind; [apply silent_library_call | intros; apply silent_ret].
Qed.

Lemma silent_all_installed l : silent P (all_installed E l).
Proof.
  induction l as [|req l IH]; simpl; [apply silent_ret|].
  apply silent_bind; [apply silent_check_package_version|].
  intros [v|]; [apply IH | apply silent_ret].
Qed.

Lemma silent_check_requirements_satisfied : silent P (check_requirements_satisfied E).
Proof.
  apply silent_try_except; [|handler_cases; apply silent_ret].
  apply silent_bind; [apply silent_open_read | intros; apply silent_all_installed].
Qed.

Lemma silent_finish_and_launch : silent P (finish_and_launch E).
Proof.
  unfold finish_and_launch.
  repeat (apply silent_bind; [apply silent_print | intros _]).
  apply silent_Popen, no_popen.
Qed.

(** The GPU probe starts one child process, [pip install pynvml]. *)
Lemma silent_check_nvidia_gpu :
  P (EvRun [executable E; "-m"; "pip"; "install"; "pynvml"] []) = false ->
  silent P (check_nvidia_gpu E).
Proof.
  intros Hpip. unfold check_nvidia_gpu.
  apply silent_bind; [by apply silent_checked_process | intros _].
  apply silent_bind; [apply silent_import | intros _].
  apply silent_try_finally; [|apply silent_library_call].
  apply silent_try_except.
  - unfold query_devices.
    apply silent_bind; [apply silent_library_call | intros _].
    apply silent_bind; [apply silent_library_call | intros n].
    destruct (0 <? n)%nat.
    + apply silent_bind; [apply silent_print | intros _].
      apply silent_bind; [|intros _; apply silent_ret].
      apply silent_for_each. intros i.
      apply silent_bind; [apply silent_library_call | intros h].
      apply silent_bind; [apply silent_library_call | intros name].
      apply silent_print.
    + apply silent_bind; [apply silent_print | intros _; apply silent_ret].
  - handler_cases. apply silent_bind; [apply silent_print | intros _; apply silent_ret].
Qed.

(** Every child process of [prepare] is a pip install without variables
    of its own. *)
Lemma silent_prepare :
  (forall packages, P (EvRun (executable E :: "-m" :: "pip" :: "install" :: packages) []) = false) ->
  silent P (prepare E).
Proof.
  intros Hpip. unfold prepare.
  apply silent_bind; [apply silent_checked_process, Hpip | intros _].
  apply silent_bind; [apply silent_print | intros _].
  apply silent_bind; [apply silent_print | intros _].
  apply silent_bind; [apply silent_is_colab | intros colab].
  destruct colab; [apply silent_print|].
  unfold install_torch.
  apply silent_bind; [apply silent_import | intros _].
  apply silent_bind; [apply silent_library_call | intros _].
  apply silent_bind.
  - destruct (negb _); [apply silent_check_nvidia_gpu, Hpip | apply silent_ret].
  - intros has_gpu. destruct has_gpu;
      (apply silent_bind; [apply silent_print | intros _; apply silent_checked_process, Hpip]).
Qed.

End Never.

Lemma silent_apt_install_requirements E : silent is_apt_install (install_requirements E).
Proof. unfold install_requirements. silence. Qed.

Lemma silent_apt_check_ffmpeg_local E :
  hosted E = false -> silent is_apt_install (check_ffmpeg E).
Proof.
  intros Hh. unfold check_ffmpeg. silence.
  all: destruct (ffmpeg_guidance (system E)) as [cmd [note|]]; silence.
Qed.



(** ** [main], path by path *)

Lemma main_run E d :
  main E d =
  if importable E "rich" then
    if hosted E then
      after [EvPrint (Panel "🎮 Running in Google Colab environment" "cyan")]
            (bind (check_requirements_satisfied E)
                  (fun satisfied => if satisfied then ready_to_use E else full_install E) d)
    else full_install E d
  else Run (Raise (ImportError "rich")) d [].
Proof.
  unfold main. rewrite bind_run. destruct (importable E "rich") eqn:Hr.
  - rewrite import_ok by done. cbv beta iota. rewrite after_nil, bind_is_colab.
    destruct (hosted E); [|done]. by rewrite bind_run, print_run.
  - by rewrite import_fails.
Qed.

Lemma silent_apt_full_install_local E :
  hosted E = false -> silent is_apt_install (full_install E).
Proof.
  intros Hh. unfold full_install.
  apply silent_bind; [by apply silent_prepare | intros _].
  apply silent_bind; [apply silent_apt_install_requirements | intros _].
  apply silent_bind; [by apply silent_apt_check_ffmpeg_local | intros _].
  by apply silent_finish_and_launch.
Qed.

(** On a local machine without ffmpeg the full installer path never
    returns: the toolchain check stops it, unless an earlier step did. *)
Lemma full_install_local_missing_raises E d :
  hosted E = false -> ffmpeg_missing E = true -> exists e, value (full_install E d) = Raise e.
Proof.
  intros Hh Hm. unfold full_install. rewrite value_bind.
  destruct (value (prepare E d)) as [[]|e]; [|eauto].
  rewrite value_bind.
  destruct (value (install_requirements E _)) as [[]|e]; [|eauto].
  rewrite value_bind.
  destruct (check_ffmpeg_local_raises E (disk (install_requirements E (disk (prepare E d)))) Hh Hm)
    as [e ->]. eauto.
Qed.

Lemma main_local_missing_raises E d :
  hosted E = false -> ffmpeg_missing E = true -> exists e, value (main E d) = Raise e.
Proof.
  intros Hh Hm. rewrite main_run, Hh.
  destruct (importable E "rich"); [by apply full_install_local_missing_raises | eauto].
Qed.

Lemma prepare_starts_with_pip E d :
  exists rest,
    log (prepare E d)
    = EvRun [executable E; "-m"; "pip"; "install"; "requests"; "rich"; "ruamel.yaml"] [] :: rest.
Proof.
  unfold prepare. rewrite log_bind. unfold install_package, subprocess_check_call.
  rewrite checked_process_run. simpl. eauto.
Qed.

(** C1, as amended: on a local machine (not the hosted runtime) where the
    ffmpeg probe fails, [main] never runs an apt-get install and never
    returns.  Under the three system names the toolchain check knows, the
    check raises SystemExit having run no command but the probe; and once
    the steps before it have returned, [main] itself ends with that
    SystemExit, the probe and the guidance being the last things it did.
    [main] reaches the check only after its pip installs: such a run, and
    any run that ends with SystemExit, began with
    [pip install requests rich ruamel.yaml]. *)
Theorem local_missing_ffmpeg_fails_without_apt E d :
  hosted E = false -> ffmpeg_missing E = true ->
  Forall (fun ev => is_apt_install ev = false) (log (main E d))
  /\ (exists e, value (main E d) = Raise e)
  /\ (importable E "rich" = true -> In (system E) ["Windows"; "Darwin"; "Linux"] ->
      value (check_ffmpeg E d) = Raise SystemExit_ffmpeg
      /\ disk (check_ffmpeg E d) = d
      /\ exists text, log (check_ffmpeg E d) =
                      [EvRun ffmpeg_probe []; EvPrint (PanelFit text "red")])
  /\ (forall message, value (main E d) = Raise (SystemExit message) ->
      exists rest,
        log (main E d)
        = EvRun [executable E; "-m"; "pip"; "install"; "requests"; "rich"; "ruamel.yaml"] []
          :: rest)
  /\ (importable E "rich" = true -> In (system E) ["Windows"; "Darwin"; "Linux"] ->
      value (prepare E d) = Ret tt ->
      value (install_requirements E (disk (prepare E d))) = Ret tt ->
      value (main E d) = Raise SystemExit_ffmpeg
      /\ exists between text,
           log (main E d)
           = EvRun [executable E; "-m"; "pip"; "install"; "requests"; "rich"; "ruamel.yaml"] []
             :: between ++ [EvRun ffmpeg_probe []; EvPrint (PanelFit text "red")]).
Proof.
  intros Hh Hm. split; [|split; [|split; [|split]]].
  - rewrite main_run, Hh. destruct (importable E "rich"); [|constructor].
    by apply silent_apt_full_install_local.
  - by apply main_local_missing_raises.
  - intros Hr Hs. rewrite check_ffmpeg_local_missing by done.
    unfold ffmpeg_guidance. simpl in Hs.
    destruct Hs as [<-|[<-|[<-|[]]]]; simpl; eauto.
  - intros message. rewrite main_run, Hh. destruct (importable E "rich"); [|done].
    intros _. unfold full_install. rewrite log_bind.
    destruct (prepare_starts_with_pip E d) as [rest ->]. simpl. eauto.
  - intros Hr Hs Hp Hi. rewrite main_run, Hh, Hr. unfold full_install.
    rewrite value_bind, log_bind, Hp, value_bind, log_bind, Hi, value_bind, log_bind.
    rewrite check_ffmpeg_local_missing by done.
    destruct (prepare_starts_with_pip E d) as [rest ->].
    assert (Hg : exists cmd note, ffmpeg_guidance (system E) = (cmd, Some note)).
    { unfold ffmpeg_guidance. simpl in Hs. destruct Hs as [<-|[<-|[<-|[]]]]; simpl; eauto. }
    destruct Hg as (cmd & note & ->). simpl value. split; [done|].
    exists (rest ++ log (install_requirements E (disk (prepare E d)))).
    exists (ffmpeg_not_found cmd note). simpl log.
    by rewrite app_nil_r, <- app_assoc.
Qed.

Lemma local_missing_ffmpeg_fails_without_apt_witness :
  hosted local_no_ffmpeg = false /\ ffmpeg_missing local_no_ffmpeg = true
  /\ Forall (fun ev => is_apt_install ev = false) (log (main local_no_ffmpeg project_disk))
  /\ value (check_ffmpeg local_no_ffmpeg project_disk) = Raise SystemExit_ffmpeg
  /\ value (main local_no_ffmpeg project_disk) = Raise SystemExit_ffmpeg.
Proof.
  split; [reflexivity | split; [reflexivity |]].
  destruct (local_missing_ffmpeg_fails_without_apt local_no_ffmpeg project_disk)
    as (H1 & _ & H3 & _ & H5); [reflexivity | reflexivity |].
  split; [exact H1 | split].
  - apply H3; [reflexivity | simpl; auto].
  - apply H5; [reflexivity | simpl; auto | reflexivity | reflexivity].
Defined.

(** C1 as stated fails: on a local machine without ffmpeg, [main] ends
    with SystemExit only after package-manager installs were attempted,
    the first of them [pip install requests rich ruamel.yaml]. *)
Lemma local_missing_ffmpeg_installs_first :
  ~ (hosted local_no_ffmpeg = false ->
     spawn local_no_ffmpeg ffmpeg_probe = NoSuchFile ->
     value (main local_no_ffmpeg project_disk) = Raise SystemExit_ffmpeg
     /\ Forall (fun ev => is_package_install ev = false)
               (log (main local_no_ffmpeg project_disk))).
Proof.
  intros H. destruct H as [_ HF]; [reflexivity | reflexivity |].
  rewrite Forall_forall in HF.
  specialize (HF (EvRun [python; "-m"; "pip"; "install"; "requests"; "rich"; "ruamel.yaml"] [])).
  assert (Hin : EvRun [python; "-m"; "pip"; "install"; "requests"; "rich"; "ruamel.yaml"] []
                ∈ log (main local_no_ffmpeg project_disk)).
  { apply list_elem_of_In. vm_compute. left. reflexivity. }
  specialize (HF Hin). discriminate HF.
Qed.

(** ** The GPU probe *)

(** Past the install and the import of pynvml, the probe is the [try]
    statement. *)
Lemma check_nvidia_gpu_imported E d :
  spawn E [executable E; "-m"; "pip"; "install"; "pynvml"] = Exited 0 ->
  importable E "pynvml" = true ->
  value (check_nvidia_gpu E d) =
  match nvmlShutdown E with
  | Raise e => Raise e
  | Ret _ =>
      match value (query_devices E d) with
      | Raise (NVMLError _) => Ret false
      | v => v
      end
  end.
Proof.
  intros Hpip Himp. unfold check_nvidia_gpu. rewrite bind_run.
  unfold install_package, subprocess_check_call. rewrite checked_process_run.
  simpl app. rewrite Hpip. cbv beta iota. simpl checked. cbv beta iota.
  rewrite value_after, bind_run, import_ok by done. cbv beta iota.
  rewrite after_nil, value_try_finally.
  destruct (nvmlShutdown E) as [[]|e]; [|reflexivity].
  simpl value at 1. cbv beta iota. rewrite value_try_except.
  destruct (value (query_devices E d)) as [b|e]; [reflexivity|].
  destruct e; reflexivity.
Qed.

(** Outside the [try] statement nothing is handled: when pip cannot
    install pynvml, the CalledProcessError leaves the probe. *)
Lemma gpu_probe_install_error :
  value (check_nvidia_gpu local_no_pynvml empty_disk)
  = Raise (CalledProcessError [python; "-m"; "pip"; "install"; "pynvml"] 1).
Proof. vm_compute. reflexivity. Qed.

(** When pynvml cannot be imported after a successful install, the
    ImportError leaves the probe: the import is outside the [try]
    statement. *)
Lemma gpu_probe_import_error E d :
  spawn E [executable E; "-m"; "pip"; "install"; "pynvml"] = Exited 0 ->
  importable E "pynvml" = false ->
  value (check_nvidia_gpu E d) = Raise (ImportError "pynvml").
Proof.
  intros Hpip Himp. unfold check_nvidia_gpu. rewrite bind_run.
  unfold install_package, subprocess_check_call. rewrite checked_process_run.
  simpl app. rewrite Hpip. cbv beta iota. simpl checked. cbv beta iota.
  by rewrite value_after, bind_run, import_fails.
Qed.

(** C2: on a machine without the NVIDIA driver the probe does not return
    False.  [nvmlInit] raises NVMLError there; the handler prints that no
    GPU was detected and returns False; then the [nvmlShutdown] of the
    [finally] clause, called on a library that was never initialised,
    raises NVMLError in its turn.  That exception replaces the False of
    the handler: it leaves the probe, and [main] with it. *)
Theorem gpu_probe_raises_without_driver :
  nvmlInit local_no_driver_shutdown_raises = Raise (NVMLError 12)
  /\ nvmlShutdown local_no_driver_shutdown_raises = Raise (NVMLError 1)
  /\ value (check_nvidia_gpu local_no_driver_shutdown_raises empty_disk) = Raise (NVMLError 1)
  /\ log (check_nvidia_gpu local_no_driver_shutdown_raises empty_disk)
     = [EvRun [python; "-m"; "pip"; "install"; "pynvml"] [];
        EvCall "pynvml.nvmlInit";
        EvPrint (Text "No NVIDIA GPU detected or NVIDIA drivers not properly installed");
        EvCall "pynvml.nvmlShutdown"]
  /\ value (main local_no_driver_shutdown_raises project_disk) = Raise (NVMLError 1).
Proof.
  split; [reflexivity | split; [reflexivity | split; [reflexivity | split]]];
    vm_compute; reflexivity.
Qed.

Lemma query_devices_init_raises E d e :
  nvmlInit E = Raise e -> value (query_devices E d) = Raise e.
Proof. intros H. unfold query_devices. by rewrite bind_run, call_run, H. Qed.

Lemma query_devices_count_raises E d e :
  nvmlInit E = Ret tt -> nvmlDeviceGetCount E = Raise e ->
  value (query_devices E d) = Raise e.
Proof.
  intros Hi Hc. unfold query_devices. rewrite bind_run, call_run, Hi. cbv beta iota.
  by rewrite value_after, bind_run, call_run, Hc.
Qed.

(** ** The requirements file *)

(** C3: a comment that is indented is not ignored.  The script strips a
    line before it asks whether the line is blank, but asks whether the
    line as read begins with [#]; so in a file whose only requirement line
    is [numpy], preceded by the comment [  # note], the satisfaction check
    goes through two requirements, the first of them the comment.  The
    source means to leave comments and blank lines out. *)
Theorem indented_comment_is_parsed_as_a_requirement :
  Str.splitlines indented_comment_txt = ["  # note"; "numpy"]
  /\ comment_line "  # note"
  /\ filter requirement_line (Str.splitlines indented_comment_txt) = ["numpy"]
  /\ parse_requirements indented_comment_txt = ["# note"; "numpy"]
  /\ List.length (parse_requirements indented_comment_txt) = 2%nat
  /\ List.length (filter requirement_line (Str.splitlines indented_comment_txt)) = 1%nat
  /\ log (check_requirements_satisfied colab_env (<["requirements.txt" := indented_comment_txt]> ∅))
     = [EvCall "pkg_resources.get_distribution"; EvCall "pkg_resources.get_distribution"].
Proof.
  split; [reflexivity | split; [by exists " note"%string |]].
  split; [reflexivity | split; [reflexivity | split; [reflexivity | split; [reflexivity|]]]].
  vm_compute. reflexivity.
Qed.

Lemma not_torch_test r :
  negb (Str.startswith r "torch") = true <-> ~ has_prefix "torch" r.
Proof. by rewrite negb_true_iff, startswith_false. Qed.

Lemma temp_content_kept content :
  temp_content content
  = Str.join Str.nl (filter (fun r => ~ has_prefix "torch" r) (Str.splitlines content)).
Proof. unfold temp_content. f_equal. apply filter_bool_prop, not_torch_test. Qed.

Lemma has_prefix_app p q s : has_prefix (p ++ q)%string s -> has_prefix p s.
Proof.
  intros [rest ->]. exists (q ++ rest)%string.
  induction p as [|a p IH]; [done | exact (f_equal (String a) IH)].
Qed.

(** C10: in the hosted runtime, what [install_requirements] writes to
    requirements_temp.txt is the lines of requirements.txt, in order and
    joined by newlines, without the lines that start with [torch]; lines
    for torchaudio and torchvision go with them, blank lines and comments
    stay. *)
Theorem temp_file_is_requirements_without_torch E d content :
  hosted E = true -> d !! "requirements.txt" = Some content ->
  let lines := Str.splitlines content in
  let kept := filter (fun r => ~ has_prefix "torch" r) lines in
  (exists rest, log (install_requirements E d)
                = EvWrite "requirements_temp.txt" (Str.join Str.nl kept) :: rest)
  /\ (forall r, r ∈ kept <-> r ∈ lines /\ ~ has_prefix "torch" r)
  /\ (forall r, has_prefix "torchaudio" r \/ has_prefix "torchvision" r -> r ∉ kept)
  /\ (forall r, r ∈ lines -> Str.strip r = "" \/ has_prefix "#" r -> r ∈ kept).
Proof.
  intros Hh Hd lines kept. split; [|split; [|split]].
  - rewrite (install_requirements_hosted E d content Hh Hd), temp_content_kept.
    fold lines. fold kept.
    destruct (checked _ _) as [[]|e]; [|destruct e]; simpl; eauto.
  - intros r. unfold kept. rewrite list_elem_of_filter. tauto.
  - intros r Hr Hk. apply list_elem_of_filter in Hk as [Hk _]. apply Hk.
    destruct Hr as [Hr|Hr].
    + by apply (has_prefix_app "torch" "audio").
    + by apply (has_prefix_app "torch" "vision").
  - intros r Hr Hb. apply list_elem_of_filter. split; [|done].
    intros [rest ->]. destruct Hb as [Hb|[rest' Hb]].
    + revert Hb. by apply strip_nonspace.
    + discriminate Hb.
Qed.

Lemma temp_file_is_requirements_without_torch_witness :
  hosted colab_env = true
  /\ project_disk !! "requirements.txt" = Some requirements_txt
  /\ exists rest, log (install_requirements colab_env project_disk)
       = EvWrite "requirements_temp.txt"
           ("# core" ++ Str.nl ++ Str.nl ++ "numpy>=1.24" ++ Str.nl ++ "  requests  ")%string
         :: rest.
Proof.
  split; [reflexivity | split; [reflexivity|]].
  destruct (temp_file_is_requirements_without_torch colab_env project_disk requirements_txt)
    as ((rest & H) & _); [reflexivity | reflexivity |].
  exists rest. rewrite H. reflexivity.
Defined.

(** ** The temporary file *)

(** The temporary file is gone when pip succeeds. *)
Lemma temp_file_removed_when_pip_succeeds E d content :
  hosted E = true -> d !! "requirements.txt" = Some content ->
  spawn E (pip_install_r E "requirements_temp.txt") = Exited 0 ->
  value (install_requirements E d) = Ret tt
  /\ disk (install_requirements E d) !! "requirements_temp.txt" = None.
Proof.
  intros Hh Hd Hp. rewrite (install_requirements_hosted E d content Hh Hd), Hp. simpl.
  split; [done | apply lookup_delete_eq].
Qed.

(** It is still there when pip exits with a non-zero code: the
    CalledProcessError skips [os.remove]. *)
Lemma temp_file_remains_when_pip_fails E d content rc :
  hosted E = true -> d !! "requirements.txt" = Some content ->
  spawn E (pip_install_r E "requirements_temp.txt") = Exited rc -> rc <> 0%Z ->
  value (install_requirements E d) = Ret tt
  /\ disk (install_requirements E d) !! "requirements_temp.txt" = Some (temp_content content).
Proof.
  intros Hh Hd Hp Hrc. rewrite (install_requirements_hosted E d content Hh Hd), Hp.
  rewrite checked_nonzero by done. simpl. split; [done | apply lookup_insert_eq].
Qed.

(** C4 fails on the code: in the hosted runtime, with the pip install of
    the requirements exiting with code 1, [install_requirements] returns
    and requirements_temp.txt is still on disk; it is still there when
    [main] has returned. *)
Theorem temp_file_left_behind :
  hosted colab_pip_r_fails = true
  /\ spawn colab_pip_r_fails (pip_install_r colab_pip_r_fails "requirements_temp.txt") = Exited 1
  /\ value (install_requirements colab_pip_r_fails project_disk) = Ret tt
  /\ disk (install_requirements colab_pip_r_fails project_disk) !! "requirements_temp.txt"
     = Some ("# core" ++ Str.nl ++ Str.nl ++ "numpy>=1.24" ++ Str.nl ++ "  requests  ")%string
  /\ value (main colab_pip_r_fails project_disk) = Ret tt
  /\ disk (main colab_pip_r_fails project_disk) !! "requirements_temp.txt"
     = Some ("# core" ++ Str.nl ++ Str.nl ++ "numpy>=1.24" ++ Str.nl ++ "  requests  ")%string.
Proof. repeat split; vm_compute; reflexivity. Qed.

(** ** The satisfaction check *)

Lemma check_requirements_no_file E d :
  d !! "requirements.txt" = None -> check_requirements_satisfied E d = Run (Ret false) d [].
Proof.
  intros Hd. unfold check_requirements_satisfied. rewrite try_except_run, bind_run.
  unfold open_read at 1. by rewrite Hd.
Qed.

(** C9: when requirements.txt does not exist, the satisfaction check
    returns False and raises nothing, so in the hosted runtime [main] goes
    on to the full installer path instead of returning early. *)
Theorem missing_requirements_file_is_unsatisfied E d :
  d !! "requirements.txt" = None ->
  check_requirements_satisfied E d = Run (Ret false) d []
  /\ (hosted E = true ->
      main E d =
      if importable E "rich" then
        after [EvPrint (Panel "🎮 Running in Google Colab environment" "cyan")]
              (full_install E d)
      else Run (Raise (ImportError "rich")) d []).
Proof.
  intros Hd. split; [by apply check_requirements_no_file|].
  intros Hh. rewrite main_run, Hh. destruct (importable E "rich"); [|done].
  by rewrite (bind_pure _ _ _ false (check_requirements_no_file E d Hd)).
Qed.

Lemma missing_requirements_file_is_unsatisfied_witness :
  empty_disk !! "requirements.txt" = None
  /\ check_requirements_satisfied colab_env empty_disk = Run (Ret false) empty_disk []
  /\ main colab_env empty_disk =
     after [EvPrint (Panel "🎮 Running in Google Colab environment" "cyan")]
           (full_install colab_env empty_disk).
Proof.
  split; [reflexivity|].
  destruct (missing_requirements_file_is_unsatisfied colab_env empty_disk) as [H1 H2];
    [reflexivity|].
  split; [exact H1 | exact (H2 eq_refl)].
Defined.

Lemma check_package_version_found E name version d :
  importable E "pkg_resources" = true -> get_distribution E name = Ret version ->
  check_package_version E name d
  = Run (Ret (Some version)) d [EvCall "pkg_resources.get_distribution"].
Proof.
  intros Hi Hg. unfold check_package_version. rewrite Hi, try_except_run, bind_run, call_run, Hg.
  reflexivity.
Qed.



Lemma ready_to_use_run E d :
  ready_to_use E d =
  after [EvPrint (Panel "✅ All required packages are already installed" "green")]
    match check_ffmpeg E d with
    | Run (Ret _) d' l =>
        Run (Ret tt) d' (l ++ [EvPrint (PanelFit "Ready to use!" "bold green");
                               EvPrint (Text "To start the application, run:");
                               EvPrint (Text "[bold cyan]streamlit run st.py[/bold cyan]")])
    | Run (Raise e) d' l => Run (Raise e) d' l
    end.
Proof.
  unfold ready_to_use. rewrite bind_run, print_run. cbv beta iota. f_equal.
  rewrite bind_run. by destruct (check_ffmpeg E d) as [[b|e] d' l].
Qed.








(** ** The toolchain check in the hosted runtime *)

Lemma attempts_app P l1 l2 : attempts P (l1 ++ l2) = (attempts P l1 + attempts P l2)%nat.
Proof. unfold attempts. by rewrite List.filter_app, length_app. Qed.

Lemma silent_attempts P {A} (m : M A) d : silent P m -> attempts P (log (m d)) = 0%nat.
Proof.
  intros H. specialize (H d). unfold attempts.
  induction H as [|ev l Hev _ IH]; [done|]. simpl. by rewrite Hev.
Qed.

Lemma check_ffmpeg_cannot_start E d :
  importable E "rich" = true -> spawn E ffmpeg_probe = CannotStart ->
  check_ffmpeg E d = Run (Raise (OSError "ffmpeg")) d [EvRun ffmpeg_probe []].
Proof.
  intros Hr Hp. unfold check_ffmpeg. rewrite bind_run, import_ok by done.
  cbv beta iota. rewrite after_nil, try_except_run, bind_run.
  unfold subprocess_run at 1. rewrite checked_process_run. fold ffmpeg_probe. rewrite Hp.
  reflexivity.
Qed.

(** Whatever the world, the toolchain check attempts [apt-get install]
    at most once. *)
Lemma check_ffmpeg_apt_at_most_once E d :
  (attempts is_apt_install (log (check_ffmpeg E d)) <= 1)%nat.
Proof.
  destruct (importable E "rich") eqn:Hr; [|rewrite check_ffmpeg_no_rich by done; vm_compute; lia].
  destruct (hosted E) eqn:Hh;
    [|rewrite silent_attempts; [lia | by apply silent_apt_check_ffmpeg_local]].
  destruct (ffmpeg_missing E) eqn:Hm.
  - rewrite check_ffmpeg_hosted_missing by done.
    destruct (checked _ _) as [[]|e]; [|vm_compute; lia].
    destruct (checked _ _) as [[]|e]; vm_compute; lia.
  - unfold ffmpeg_missing in Hm. destruct (spawn E ffmpeg_probe) as [rc| |] eqn:Hp; [| done |].
    + apply negb_false_iff, Z.eqb_eq in Hm. subst rc.
      rewrite check_ffmpeg_present by done. vm_compute. lia.
    + rewrite check_ffmpeg_cannot_start by done. vm_compute. lia.
Qed.

Lemma full_install_apt_at_most_once E d :
  (attempts is_apt_install (log (full_install E d)) <= 1)%nat.
Proof.
  unfold full_install.
  rewrite log_bind, attempts_app, silent_attempts by (by apply silent_prepare).
  destruct (value (prepare E d)); [|unfold attempts in *; simpl; lia].
  rewrite log_bind, attempts_app, silent_attempts by apply silent_apt_install_requirements.
  destruct (value (install_requirements E _)); [|unfold attempts in *; simpl; lia].
  rewrite log_bind, attempts_app.
  pose proof (check_ffmpeg_apt_at_most_once E
                (disk (install_requirements E (disk (prepare E d))))) as Hc.
  destruct (value (check_ffmpeg E _)); [|unfold attempts in *; simpl; lia].
  rewrite (silent_attempts _ (finish_and_launch E)) by (by apply silent_finish_and_launch).
  lia.
Qed.

Lemma main_apt_at_most_once E d :
  (attempts is_apt_install (log (main E d)) <= 1)%nat.
Proof.
  rewrite main_run. destruct (importable E "rich"); [|unfold attempts in *; simpl; lia].
  destruct (hosted E); [|apply full_install_apt_at_most_once].
  rewrite log_after, attempts_app, log_bind, attempts_app.
  rewrite (silent_attempts _ (check_requirements_satisfied E))
    by (by apply silent_check_requirements_satisfied).
  change (attempts is_apt_install [_]) with 0%nat.
  destruct (value (check_requirements_satisfied E d)) as [[]|e]; [| |unfold attempts in *; simpl; lia].
  - rewrite ready_to_use_run, log_after, attempts_app.
    pose proof (check_ffmpeg_apt_at_most_once E (disk (check_requirements_satisfied E d))) as Hc.
    destruct (check_ffmpeg E _) as [[b|e] d' l]; simpl log in *; [|unfold attempts in *; simpl; lia].
    rewrite attempts_app. change (attempts is_apt_install [_; _; _]) with 0%nat.
    change (attempts is_apt_install [_]) with 0%nat. lia.
  - pose proof (full_install_apt_at_most_once E (disk (check_requirements_satisfied E d))).
    unfold attempts in *. simpl. lia.
Qed.

(** C6, as amended: in the hosted runtime with ffmpeg missing, the
    toolchain check runs [apt-get update] right after the probe and, when
    that succeeds, attempts [apt-get install -y ffmpeg] exactly once; when
    the install succeeds as well, the check reports the installation and
    returns True, without probing for ffmpeg again.  When either apt-get
    command exits with a code other than 0, its CalledProcessError leaves
    the check, and nothing is run after the failing command.  The install
    is never attempted twice, in the check or in a whole run of [main]. *)
Theorem hosted_missing_ffmpeg_is_installed_once E d :
  hosted E = true -> importable E "rich" = true -> ffmpeg_missing E = true ->
  (attempts is_apt_install (log (check_ffmpeg E d)) <= 1)%nat
  /\ (attempts is_apt_install (log (check_ffmpeg E d)) = 1%nat
      <-> spawn E ["apt-get"; "update"] = Exited 0)
  /\ (spawn E ["apt-get"; "update"] = Exited 0 ->
      spawn E ["apt-get"; "install"; "-y"; "ffmpeg"] = Exited 0 ->
      value (check_ffmpeg E d) = Ret true)
  /\ (attempts is_apt_install (log (main E d)) <= 1)%nat
  /\ (exists rest,
        log (check_ffmpeg E d) = EvRun ffmpeg_probe [] :: EvRun ["apt-get"; "update"] [] :: rest
        /\ ~ In (EvRun ffmpeg_probe []) rest)
  /\ (spawn E ["apt-get"; "update"] = Exited 0 ->
      spawn E ["apt-get"; "install"; "-y"; "ffmpeg"] = Exited 0 ->
      log (check_ffmpeg E d)
      = [EvRun ffmpeg_probe []; EvRun ["apt-get"; "update"] [];
         EvRun ["apt-get"; "install"; "-y"; "ffmpeg"] [];
         EvPrint (Panel "✅ FFmpeg has been installed" "green")])
  /\ (forall rc, rc <> 0%Z -> spawn E ["apt-get"; "update"] = Exited rc ->
      value (check_ffmpeg E d) = Raise (CalledProcessError ["apt-get"; "update"] rc)
      /\ log (check_ffmpeg E d) = [EvRun ffmpeg_probe []; EvRun ["apt-get"; "update"] []])
  /\ (forall rc, rc <> 0%Z -> spawn E ["apt-get"; "update"] = Exited 0 ->
      spawn E ["apt-get"; "install"; "-y"; "ffmpeg"] = Exited rc ->
      value (check_ffmpeg E d)
      = Raise (CalledProcessError ["apt-get"; "install"; "-y"; "ffmpeg"] rc)
      /\ log (check_ffmpeg E d)
         = [EvRun ffmpeg_probe []; EvRun ["apt-get"; "update"] [];
            EvRun ["apt-get"; "install"; "-y"; "ffmpeg"] []]).
Proof.
  intros Hh Hr Hm. split; [apply check_ffmpeg_apt_at_most_once|].
  split; [|split; [|split; [apply main_apt_at_most_once|]]].
  - rewrite check_ffmpeg_hosted_missing by done.
    rewrite <- (checked_ok ["apt-get"; "update"]).
    destruct (checked ["apt-get"; "update"] _) as [[]|e].
    + destruct (checked _ _) as [[]|e]; by vm_compute.
    + split; [by vm_compute | done].
  - intros Hu Hi. rewrite check_ffmpeg_hosted_missing by done. by rewrite Hu, Hi.
  - rewrite check_ffmpeg_hosted_missing by done. cbv zeta.
    split; [|split; [|split]].
    + destruct (checked ["apt-get"; "update"] _) as [[]|e];
        [destruct (checked _ _) as [[]|e]|]; simpl log; eexists; (split; [reflexivity|]);
        simpl; intros H; repeat (destruct H as [H|H]; [discriminate H|]); done.
    + intros Hu Hi. by rewrite Hu, Hi.
    + intros rc Hrc Hu. by rewrite Hu, checked_nonzero.
    + intros rc Hrc Hu Hi. rewrite Hu, Hi. simpl checked at 1. cbv beta iota.
      by rewrite checked_nonzero.
Qed.

Lemma hosted_missing_ffmpeg_is_installed_once_witness :
  hosted colab_no_ffmpeg = true /\ importable colab_no_ffmpeg "rich" = true
  /\ ffmpeg_missing colab_no_ffmpeg = true
  /\ attempts is_apt_install (log (check_ffmpeg colab_no_ffmpeg empty_disk)) = 1%nat
  /\ value (check_ffmpeg colab_no_ffmpeg empty_disk) = Ret true
  /\ log (check_ffmpeg colab_no_ffmpeg empty_disk)
     = [EvRun ffmpeg_probe []; EvRun ["apt-get"; "update"] [];
        EvRun ["apt-get"; "install"; "-y"; "ffmpeg"] [];
        EvPrint (Panel "✅ FFmpeg has been installed" "green")].
Proof.
  split; [reflexivity | split; [reflexivity | split; [reflexivity|]]].
  destruct (hosted_missing_ffmpeg_is_installed_once colab_no_ffmpeg empty_disk)
    as (_ & H2 & H3 & _ & _ & H6 & _); [reflexivity | reflexivity | reflexivity |].
  split; [apply H2; reflexivity | split; [apply H3; reflexivity | apply H6; reflexivity]].
Defined.

(** C6 as stated fails: in the hosted runtime without ffmpeg, when
    [apt-get update] exits with code 100, [apt-get install] is not
    attempted and the toolchain check raises instead of returning. *)
Lemma hosted_missing_ffmpeg_update_may_fail :
  ~ (hosted colab_apt_update_fails = true ->
     spawn colab_apt_update_fails ffmpeg_probe = NoSuchFile ->
     attempts is_apt_install (log (check_ffmpeg colab_apt_update_fails empty_disk)) = 1%nat
     /\ value (check_ffmpeg colab_apt_update_fails empty_disk) = Ret true).
Proof.
  intros H. destruct H as [Hn _]; [reflexivity | reflexivity |].
  vm_compute in Hn. discriminate Hn.
Qed.

(** ** A failing install of the requirements *)

Lemma finish_and_launch_log E d :
  log (finish_and_launch E d) =
  [EvPrint (PanelFit "Installation completed" "bold green");
   EvPrint (Text "To start the application, run:");
   EvPrint (Text "[bold cyan]streamlit run st.py[/bold cyan]");
   EvPrint (Text "[yellow]Note: First startup may take up to 1 minute[/yellow]");
   EvPrint (Text (Str.nl ++ "[yellow]If the application fails to start:[/yellow]")%string);
   EvPrint (Text "1. [yellow]Check your network connection[/yellow]");
   EvPrint (Text "2. [yellow]Re-run the installer: [bold]python install.py[/bold][/yellow]");
   EvPopen ["streamlit"; "run"; "st.py"]].
Proof. reflexivity. Qed.



Lemma silent_not_in P {A} (m : M A) d ev : silent P m -> P ev = true -> ~ In ev (log (m d)).
Proof.
  intros Hs Hev Hin. specialize (Hs d). rewrite Forall_forall in Hs.
  apply list_elem_of_In, Hs in Hin. congruence.
Qed.





(** ** The exit code *)

Lemma ends_with_app {A} (pre l t : list A) :
  (exists p, l = p ++ t) -> exists p, pre ++ l = p ++ t.
Proof. intros [p ->]. exists (pre ++ p). by rewrite app_assoc. Qed.

Lemma full_install_returns E d :
  value (full_install E d) = Ret tt ->
  exists pre, log (full_install E d) = pre ++ [EvPopen ["streamlit"; "run"; "st.py"]].
Proof.
  unfold full_install. rewrite value_bind, log_bind.
  destruct (value (prepare E d)) as [[]|e]; [|done].
  rewrite value_bind, log_bind.
  destruct (value (install_requirements E _)) as [[]|e]; [|done].
  rewrite value_bind, log_bind.
  destruct (value (check_ffmpeg E _)) as [b|e]; [|done].
  intros _. rewrite finish_and_launch_log.
  do 3 apply ends_with_app. eexists [_; _; _; _; _; _; _]. reflexivity.
Qed.

Lemma ready_to_use_returns E d :
  value (ready_to_use E d) = Ret tt ->
  exists pre, log (ready_to_use E d)
              = pre ++ [EvPrint (PanelFit "Ready to use!" "bold green");
                        EvPrint (Text "To start the application, run:");
                        EvPrint (Text "[bold cyan]streamlit run st.py[/bold cyan]")].
Proof.
  rewrite ready_to_use_run, value_after, log_after.
  destruct (check_ffmpeg E d) as [[b|e] d' l]; [|done].
  intros _. simpl. by exists (EvPrint (Panel "✅ All required packages are already installed" "green") :: l).
Qed.

(** C8, as amended: the exit code is 0 exactly when [main] returns, which
    it does only at the end of the full run, having launched the
    application, or at the early return of the hosted runtime; it is 1 in
    every run on a local machine where ffmpeg is missing, and in every
    other run in which an exception leaves [main]. *)
Theorem exit_code_of_main E d :
  (exit_code (main E d) = 0%Z <-> value (main E d) = Ret tt)
  /\ (exit_code (main E d) = 0%Z ->
      (exists pre, log (main E d) = pre ++ [EvPopen ["streamlit"; "run"; "st.py"]])
      \/ (hosted E = true /\
          exists pre, log (main E d)
                      = pre ++ [EvPrint (PanelFit "Ready to use!" "bold green");
                                EvPrint (Text "To start the application, run:");
                                EvPrint (Text "[bold cyan]streamlit run st.py[/bold cyan]")]))
  /\ (hosted E = false -> ffmpeg_missing E = true -> exit_code (main E d) = 1%Z)
  /\ (exit_code (main E d) <> 0%Z <-> exists e, value (main E d) = Raise e).
Proof.
  assert (Hcode : exit_code (main E d) = 0%Z <-> value (main E d) = Ret tt).
  { unfold exit_code. destruct (value (main E d)) as [[]|e]; split; done. }
  split; [exact Hcode|]. split; [|split].
  - rewrite Hcode, main_run.
    destruct (importable E "rich"); [|done].
    destruct (hosted E).
    + rewrite value_after, log_after, value_bind, log_bind.
      destruct (value (check_requirements_satisfied E d)) as [[]|e]; [| |done]; intros Hv.
      * right. split; [done|]. do 2 apply ends_with_app.
        by apply ready_to_use_returns.
      * left. do 2 apply ends_with_app. by apply full_install_returns.
    + intros Hv. left. by apply full_install_returns.
  - intros Hh Hm. destruct (main_local_missing_raises E d Hh Hm) as [e He].
    unfold exit_code. by rewrite He.
  - unfold exit_code. destruct (value (main E d)) as [[]|e]; split; try done.
    + by intros [e He].
    + eauto.
Qed.

(** C8 as stated fails: in the hosted runtime with ffmpeg present, when
    [pip install requests rich ruamel.yaml] exits with code 1 the exit
    code of the script is 1, although the toolchain is not missing. *)
Lemma exit_code_nonzero_with_ffmpeg_present :
  ~ (exit_code (main colab_first_pip_fails empty_disk) <> 0%Z
     <-> hosted colab_first_pip_fails = false /\ ffmpeg_missing colab_first_pip_fails = true).
Proof.
  intros [H _]. destruct H as [Hh _]; [|discriminate Hh].
  vm_compute. discriminate.
Qed.

Lemma exit_code_of_main_witness :
  hosted local_no_ffmpeg = false /\ ffmpeg_missing local_no_ffmpeg = true
  /\ exit_code (main local_no_ffmpeg project_disk) = 1%Z
  /\ value (main colab_env project_disk) = Ret tt
  /\ exit_code (main colab_env project_disk) = 0%Z.
Proof.
  split; [reflexivity | split; [reflexivity|]].
  destruct (exit_code_of_main local_no_ffmpeg project_disk) as (_ & _ & H3 & _).
  split; [apply H3; reflexivity|].
  destruct (exit_code_of_main colab_env project_disk) as (H1 & _).
  split; [reflexivity | apply H1; reflexivity].
Defined.

(** * Further properties of the script *)

(** ** The files a function leaves alone *)

Lemma disk_bind {A B} (m : M A) (k : A -> M B) d :
  disk (bind m k d) =
  match value (m d) with
  | Ret a => disk (k a (disk (m d)))
  | Raise _ => disk (m d)
  end.
Proof. unfold bind. destruct (value (m d)); reflexivity. Qed.

Lemma disk_try_except {A} (body : M A) h d :
  disk (try_except body h d) =
  match value (body d) with
  | Ret _ => disk (body d)
  | Raise e => match h e with
               | Some handler => disk (handler (disk (body d)))
               | None => disk (body d)
               end
  end.
Proof.
  unfold try_except. destruct (value (body d)) as [a|e]; [done|]. by destruct (h e).
Qed.

Lemma keeps_disk_bind {A B} (m : M A) (k : A -> M B) :
  keeps_disk m -> (forall a, keeps_disk (k a)) -> keeps_disk (bind m k).
Proof.
  intros Hm Hk d. rewrite disk_bind. destruct (value (m d)); [rewrite Hk|]; apply Hm.
Qed.

Lemma keeps_disk_try_except {A} (body : M A) h :
  keeps_disk body -> (forall e handler, h e = Some handler -> keeps_disk handler) ->
  keeps_disk (try_except body h).
Proof.
  intros Hb Hh d. rewrite disk_try_except.
  destruct (value (body d)) as [a|e]; [apply Hb|].
  destruct (h e) as [handler|] eqn:He; [|apply Hb].
  rewrite (Hh e handler He). apply Hb.
Qed.

Lemma keeps_disk_try_finally {A} (body : M A) final :
  keeps_disk body -> keeps_disk final -> keeps_disk (try_finally body final).
Proof. intros Hb Hf d. unfold try_finally. simpl. rewrite Hf. apply Hb. Qed.

Lemma keeps_disk_ret {A} (a : A) : keeps_disk (ret a).
Proof. done. Qed.

Lemma keeps_disk_raise {A} e : keeps_disk (@raise A e).
Proof. done. Qed.

Lemma keeps_disk_lift {A} (r : result A) : keeps_disk (lift r).
Proof. done. Qed.

Lemma keeps_disk_emit ev : keeps_disk (emit ev).
Proof. done. Qed.

Lemma keeps_disk_open_read path : keeps_disk (open_read path).
Proof. intros d. unfold open_read. by destruct (d !! path). Qed.

Lemma keeps_disk_for_each {A} (l : list A) body :
  (forall x, keeps_disk (body x)) -> keeps_disk (for_each l body).
Proof.
  intros Hb. induction l as [|x l IH]; simpl; [done|].
  apply keeps_disk_bind; [apply Hb | intros _; apply IH].
Qed.

Lemma keeps_disk_import E m : keeps_disk (import_ E m).
Proof. intros d. unfold import_. by destruct (importable E m). Qed.

Lemma keeps_disk_call {A} name (answer : result A) : keeps_disk (call name answer).
Proof. done. Qed.

Lemma keeps_disk_checked_process E argv env : keeps_disk (checked_process E argv env).
Proof. done. Qed.

Lemma keeps_disk_Popen E argv : keeps_disk (subprocess_Popen E argv).
Proof. done. Qed.

Lemma keeps_disk_is_colab E : keeps_disk (is_colab E).
Proof. intros d. by rewrite is_colab_run. Qed.

Ltac still :=
  repeat first
    [ apply keeps_disk_ret | apply keeps_disk_raise | apply keeps_disk_lift
    | apply keeps_disk_emit | apply keeps_disk_open_read | apply keeps_disk_import
    | apply keeps_disk_call | apply keeps_disk_checked_process | apply keeps_disk_Popen
    | apply keeps_disk_is_colab
    | apply keeps_disk_bind; [|intros ?]
    | apply keeps_disk_try_finally
    | apply keeps_disk_for_each; intros ?
    | apply keeps_disk_try_except; [|handler_cases]
    | match goal with
      | |- keeps_disk (if ?b then _ else _) => destruct b
      | |- keeps_disk (match ?x with _ => _ end) => destruct x
      end ].

Lemma keeps_disk_check_ffmpeg E : keeps_disk (check_ffmpeg E).
Proof.
  unfold check_ffmpeg. still.
  all: destruct (ffmpeg_guidance (system E)) as [cmd [note|]]; still.
Qed.

Lemma keeps_disk_check_nvidia_gpu E : keeps_disk (check_nvidia_gpu E).
Proof. unfold check_nvidia_gpu, query_devices. still. Qed.

Lemma keeps_disk_check_package_version E name : keeps_disk (check_package_version E name).
Proof. unfold check_package_version. still. Qed.

Lemma keeps_disk_all_installed E l : keeps_disk (all_installed E l).
Proof.
  induction l as [|req l IH]; simpl; [done|].
  apply keeps_disk_bind; [apply keeps_disk_check_package_version|].
  intros [v|]; [apply IH | done].
Qed.

Lemma keeps_disk_check_requirements_satisfied E :
  keeps_disk (check_requirements_satisfied E).
Proof.
  apply keeps_disk_try_except; [|handler_cases; done].
  apply keeps_disk_bind; [apply keeps_disk_open_read | intros; apply keeps_disk_all_installed].
Qed.

Lemma keeps_disk_prepare E : keeps_disk (prepare E).
Proof.
  unfold prepare, install_torch.
  apply keeps_disk_bind; [apply keeps_disk_checked_process | intros _].
  apply keeps_disk_bind; [apply keeps_disk_emit | intros _].
  apply keeps_disk_bind; [apply keeps_disk_emit | intros _].
  apply keeps_disk_bind; [apply keeps_disk_is_colab | intros colab].
  destruct colab; [apply keeps_disk_emit|].
  apply keeps_disk_bind; [apply keeps_disk_import | intros _].
  apply keeps_disk_bind; [apply keeps_disk_call | intros _].
  apply keeps_disk_bind.
  - destruct (negb _); [apply keeps_disk_check_nvidia_gpu | apply keeps_disk_ret].
  - intros has_gpu. destruct has_gpu;
      (apply keeps_disk_bind; [apply keeps_disk_emit | intros _; apply keeps_disk_checked_process]).
Qed.

Lemma keeps_disk_finish_and_launch E : keeps_disk (finish_and_launch E).
Proof. unfold finish_and_launch. still. Qed.

Lemma silent_main_parts P E :
  (forall o, P (EvPrint o) = false) ->
  silent P (check_requirements_satisfied E) -> silent P (check_ffmpeg E) ->
  silent P (prepare E) -> silent P (install_requirements E) ->
  silent P (finish_and_launch E) ->
  silent P (main E).
Proof.
  intros Hprint Hcheck Hffmpeg Hprepare Hinstall Hfinish.
  assert (Hfull : silent P (full_install E)).
  { unfold full_install. repeat (apply silent_bind; [done | intros _]). done. }
  unfold main.
  apply silent_bind; [apply silent_import | intros _].
  apply silent_bind; [apply silent_is_colab | intros colab].
  destruct colab; [|done].
  apply silent_bind; [by apply silent_emit | intros _].
  apply silent_bind; [done | intros sat]. destruct sat; [|done].
  unfold ready_to_use.
  apply silent_bind; [by apply silent_emit | intros _].
  apply silent_bind; [done | intros _].
  repeat (apply silent_bind; [by apply silent_emit | intros _]). by apply silent_emit.
Qed.

Lemma silent_lookups P E :
  P (EvCall "pkg_resources.get_distribution") = false ->
  silent P (check_requirements_satisfied E).
Proof.
  intros Hcall.
  apply silent_try_except; [|handler_cases; apply silent_ret].
  apply silent_bind; [apply silent_open_read | intros content].
  induction (parse_requirements content) as [|req l IH]; simpl; [apply silent_ret|].
  apply silent_bind; [|intros [v|]; [apply IH | apply silent_ret]].
  unfold check_package_version. destruct (importable E "pkg_resources"); [|apply silent_raise].
  apply silent_try_except; [|handler_cases; apply silent_ret].
  apply silent_bind; [by apply silent_call | intros; apply silent_ret].
Qed.

Lemma silent_file_change_check_ffmpeg E : silent is_file_change (check_ffmpeg E).
Proof.
  unfold check_ffmpeg. silence.
  all: destruct (ffmpeg_guidance (system E)) as [cmd [note|]]; silence.
Qed.

Lemma silent_weaken (P Q : event -> bool) {A} (m : M A) :
  (forall ev, P ev = false -> Q ev = false) -> silent P m -> silent Q m.
Proof. intros HPQ Hs d. eapply Forall_impl; [apply Hs | exact HPQ]. Qed.

(** X1: whatever the world, the only file that [main] itself writes or
    removes is requirements_temp.txt: no write and no removal of another
    file is in the log of a run, however the run ends.  In particular the
    script never writes to requirements.txt. *)
Theorem main_writes_only_the_temp_file E d :
  Forall (fun ev => changes_other_file "requirements_temp.txt" ev = false) (log (main E d)).
Proof.
  revert d. change (silent (changes_other_file "requirements_temp.txt") (main E)).
  apply silent_main_parts.
  - done.
  - by apply silent_lookups.
  - apply (silent_weaken is_file_change); [by intros [] | apply silent_file_change_check_ffmpeg].
  - by apply silent_prepare.
  - unfold install_requirements. silence.
  - by apply silent_finish_and_launch.
Qed.

(** X2: on a local machine (not the hosted runtime) [main] itself writes
    no file and removes none, whatever happens: no temporary file is made
    for the install of the requirements. *)
Theorem local_main_writes_no_file E d :
  hosted E = false -> Forall (fun ev => is_file_change ev = false) (log (main E d)).
Proof.
  intros Hh. rewrite main_run, Hh. destruct (importable E "rich"); [|constructor].
  revert d. change (silent is_file_change (full_install E)). unfold full_install.
  apply silent_bind; [by apply silent_prepare | intros _].
  apply silent_bind; [|intros _].
  { intros d0. pose proof (install_requirements_local E d0 Hh) as Hrun.
    cbv zeta in Hrun. rewrite Hrun.
    destruct (checked _ _) as [[]|e]; [|destruct e]; simpl; repeat constructor. }
  apply silent_bind; [|intros _; by apply silent_finish_and_launch].
  apply silent_file_change_check_ffmpeg.
Qed.

Lemma local_main_writes_no_file_witness :
  hosted local_pip_r_fails = false
  /\ Forall (fun ev => is_file_change ev = false) (log (main local_pip_r_fails project_disk)).
Proof.
  split; [reflexivity|].
  apply (local_main_writes_no_file local_pip_r_fails project_disk). reflexivity.
Defined.

(** X3: in the hosted runtime without requirements.txt, [main] never
    returns: the satisfaction check says False, and the FileNotFoundError
    of [install_requirements] is not handled.  It leaves [main] as soon as
    the steps before the install have returned, and no install of the
    requirements is attempted. *)
Theorem hosted_without_requirements_never_returns E d :
  hosted E = true -> d !! "requirements.txt" = None ->
  (exists e, value (main E d) = Raise e)
  /\ Forall (fun ev => is_requirements_install ev = false) (log (main E d))
  /\ (importable E "rich" = true -> value (prepare E d) = Ret tt ->
      value (main E d) = Raise (FileNotFoundError "requirements.txt")).
Proof.
  intros Hh Hd. rewrite main_run, Hh.
  destruct (importable E "rich"); [|split; [eauto | split; [constructor | done]]].
  rewrite (bind_pure _ _ _ false (check_requirements_no_file E d Hd)).
  rewrite value_after, log_after. unfold full_install.
  rewrite value_bind, log_bind, keeps_disk_prepare.
  rewrite (bind_run (install_requirements E)), install_requirements_hosted_no_file by done.
  cbv beta iota. split; [|split].
  - destruct (value (prepare E d)); eauto.
  - constructor; [done|]. apply Forall_app. split; [by apply silent_prepare|].
    destruct (value (prepare E d)); constructor.
  - by intros _ ->.
Qed.

Lemma hosted_without_requirements_never_returns_witness :
  hosted colab_env = true /\ empty_disk !! "requirements.txt" = None
  /\ value (main colab_env empty_disk) = Raise (FileNotFoundError "requirements.txt").
Proof.
  split; [reflexivity | split; [reflexivity|]].
  destruct (hosted_without_requirements_never_returns colab_env empty_disk) as (_ & _ & H);
    [reflexivity | reflexivity |].
  apply H; reflexivity.
Defined.

(** ** More on the satisfaction check *)

Lemma check_package_version_not_found E name x d :
  importable E "pkg_resources" = true ->
  get_distribution E name = Raise (DistributionNotFound x) ->
  check_package_version E name d = Run (Ret None) d [EvCall "pkg_resources.get_distribution"].
Proof.
  intros Hi Hg. unfold check_package_version.
  rewrite Hi, try_except_run, bind_run, call_run, Hg. reflexivity.
Qed.

Lemma check_requirements_satisfied_reads E d content :
  d !! "requirements.txt" = Some content ->
  check_requirements_satisfied E d
  = try_except (all_installed E (parse_requirements content)) file_not_found_is_false d.
Proof.
  intros Hd. unfold check_requirements_satisfied. rewrite !try_except_run, bind_run.
  unfold open_read at 1. rewrite Hd. cbv beta iota. by rewrite after_nil.
Qed.

Lemma all_installed_stops E before req after x d :
  importable E "pkg_resources" = true ->
  Forall (fun r => installed E r = true) before ->
  get_distribution E (package_name_of req) = Raise (DistributionNotFound x) ->
  all_installed E (before ++ req :: after) d
  = Run (Ret false) d (repeat (EvCall "pkg_resources.get_distribution") (S (List.length before))).
Proof.
  intros Hi Hb Hreq. induction Hb as [|r before Hr _ IH]; simpl.
  - rewrite bind_run, (check_package_version_not_found E _ x) by done. reflexivity.
  - unfold installed in Hr.
    destruct (get_distribution E (package_name_of r)) as [v|] eqn:Hv; [|done].
    rewrite bind_run, (check_package_version_found E _ v) by done.
    cbv beta iota. by rewrite IH.
Qed.

(** X4: the satisfaction check stops at the first requirement whose
    distribution is not found: it returns False, has looked up the
    requirements before that one and that one, and none of those after. *)
Theorem satisfaction_check_stops_at_first_missing E d content before req after x :
  d !! "requirements.txt" = Some content ->
  importable E "pkg_resources" = true ->
  parse_requirements content = before ++ req :: after ->
  Forall (fun r => installed E r = true) before ->
  get_distribution E (package_name_of req) = Raise (DistributionNotFound x) ->
  check_requirements_satisfied E d
  = Run (Ret false) d (repeat (EvCall "pkg_resources.get_distribution") (S (List.length before))).
Proof.
  intros Hd Hi Hp Hb Hreq.
  rewrite (check_requirements_satisfied_reads E d content Hd), try_except_run, Hp.
  by rewrite (all_installed_stops E before req after x).
Qed.

Lemma satisfaction_check_stops_at_first_missing_witness :
  project_disk !! "requirements.txt" = Some requirements_txt
  /\ parse_requirements requirements_txt
     = ["torch==2.0.0"; "torchaudio==2.0.0"] ++ "numpy>=1.24" :: ["requests"]
  /\ check_requirements_satisfied colab_no_numpy project_disk
     = Run (Ret false) project_disk (repeat (EvCall "pkg_resources.get_distribution") 3).
Proof.
  split; [reflexivity | split; [reflexivity|]].
  apply (satisfaction_check_stops_at_first_missing colab_no_numpy project_disk requirements_txt
           ["torch==2.0.0"; "torchaudio==2.0.0"] "numpy>=1.24" ["requests"] "numpy");
    try reflexivity.
  repeat constructor.
Defined.

Lemma all_installed_answers E l d :
  importable E "pkg_resources" = true ->
  Forall (lookup_answers E) l ->
  value (all_installed E l d) = Ret (forallb (installed E) l).
Proof.
  intros Hi Hl. induction Hl as [|r l Hr _ IH]; [done|].
  simpl. unfold lookup_answers in Hr. unfold installed at 1.
  destruct (get_distribution E (package_name_of r)) as [v|e] eqn:Hv.
  - rewrite bind_run, (check_package_version_found E _ v) by done.
    cbv beta iota. by rewrite value_after.
  - destruct e; try done.
    by rewrite bind_run, (check_package_version_not_found E _ req) by done.
Qed.

(** X5: when every lookup gives a version or DistributionNotFound, the
    satisfaction check returns True exactly when every requirement of
    requirements.txt has its distribution installed, and False otherwise;
    it raises nothing. *)
Theorem satisfaction_check_decides E d content :
  d !! "requirements.txt" = Some content ->
  importable E "pkg_resources" = true ->
  Forall (lookup_answers E) (parse_requirements content) ->
  value (check_requirements_satisfied E d)
  = Ret (forallb (installed E) (parse_requirements content)).
Proof.
  intros Hd Hi Hl.
  rewrite (check_requirements_satisfied_reads E d content Hd), value_try_except.
  by rewrite (all_installed_answers E _ d Hi Hl).
Qed.

Lemma satisfaction_check_decides_witness :
  project_disk !! "requirements.txt" = Some requirements_txt
  /\ importable colab_no_numpy "pkg_resources" = true
  /\ value (check_requirements_satisfied colab_no_numpy project_disk) = Ret false
  /\ value (check_requirements_satisfied colab_env project_disk) = Ret true.
Proof.
  split; [reflexivity | split; [reflexivity|]]. split.
  - rewrite (satisfaction_check_decides colab_no_numpy project_disk requirements_txt);
      [reflexivity | reflexivity | reflexivity |].
    repeat constructor.
  - rewrite (satisfaction_check_decides colab_env project_disk requirements_txt);
      [reflexivity | reflexivity | reflexivity |].
    repeat constructor.
Defined.

(** X6: a requirements.txt without a valid line (empty, or only blank
    lines and comments) is satisfied at once: the check returns True
    without a lookup, whether pkg_resources can be imported or not. *)
Theorem no_requirement_is_satisfied E d content :
  d !! "requirements.txt" = Some content ->
  Forall (fun r => ~ valid_line r) (Str.splitlines content) ->
  check_requirements_satisfied E d = Run (Ret true) d [].
Proof.
  intros Hd Hl. rewrite (check_requirements_satisfied_reads E d content Hd).
  assert (parse_requirements content = []) as ->; [|reflexivity].
  rewrite parse_requirements_valid.
  induction Hl as [|r l Hr _ IH]; [done|].
  rewrite filter_cons. by destruct (decide (valid_line r)).
Qed.

Lemma no_requirement_is_satisfied_witness :
  comments_only_disk !! "requirements.txt" = Some comments_only_txt
  /\ check_requirements_satisfied colab_no_pkg_resources comments_only_disk
     = Run (Ret true) comments_only_disk [].
Proof.
  split; [reflexivity|].
  apply (no_requirement_is_satisfied colab_no_pkg_resources comments_only_disk comments_only_txt);
    [reflexivity|].
  repeat constructor; intros [H1 H2]; first [by apply H1 | apply H2; by eexists].
Defined.

(** X7: when pkg_resources cannot be imported and requirements.txt holds
    a requirement, the satisfaction check does not return: the [except]
    clause of [check_package_version] names the module that was not
    bound, and the UnboundLocalError leaves the check; in the hosted
    runtime it leaves [main] right after the banner. *)
Theorem satisfaction_check_needs_pkg_resources E d content :
  d !! "requirements.txt" = Some content ->
  importable E "pkg_resources" = false ->
  parse_requirements content <> [] ->
  check_requirements_satisfied E d = Run (Raise (UnboundLocalError "pkg_resources")) d []
  /\ (hosted E = true -> importable E "rich" = true ->
      main E d = Run (Raise (UnboundLocalError "pkg_resources")) d
                     [EvPrint (Panel "🎮 Running in Google Colab environment" "cyan")]).
Proof.
  intros Hd Hi Hp.
  assert (Hrun : check_requirements_satisfied E d
                 = Run (Raise (UnboundLocalError "pkg_resources")) d []).
  { rewrite (check_requirements_satisfied_reads E d content Hd), try_except_run.
    destruct (parse_requirements content) as [|req l]; [done|].
    simpl. rewrite bind_run. unfold check_package_version. by rewrite Hi. }
  split; [done|]. intros Hh Hr. by rewrite main_run, Hr, Hh, bind_run, Hrun.
Qed.

Lemma satisfaction_check_needs_pkg_resources_witness :
  project_disk !! "requirements.txt" = Some requirements_txt
  /\ importable colab_no_pkg_resources "pkg_resources" = false
  /\ value (main colab_no_pkg_resources project_disk)
     = Raise (UnboundLocalError "pkg_resources").
Proof.
  split; [reflexivity | split; [reflexivity|]].
  destruct (satisfaction_check_needs_pkg_resources colab_no_pkg_resources project_disk
              requirements_txt) as [_ H]; [reflexivity | reflexivity | discriminate |].
  rewrite H; reflexivity.
Defined.

(** ** More on the toolchain check *)

(** X8: on a local machine without ffmpeg whose system name is none of
    Windows, Darwin and Linux, the toolchain check prints no guidance and
    does not raise SystemExit: the variable [extra_note] is unbound when
    the panel is formatted, and UnboundLocalError leaves the check right
    after the probe. *)
Theorem toolchain_check_unknown_system E d :
  importable E "rich" = true -> hosted E = false -> ffmpeg_missing E = true ->
  ~ In (system E) ["Windows"; "Darwin"; "Linux"] ->
  check_ffmpeg E d = Run (Raise (UnboundLocalError "extra_note")) d [EvRun ffmpeg_probe []].
Proof.
  intros Hr Hh Hm Hs. rewrite check_ffmpeg_local_missing by done.
  unfold ffmpeg_guidance. simpl in Hs.
  destruct (decide (system E = "Windows")) as [Hn|_]; [exfalso; apply Hs; rewrite Hn; auto|].
  destruct (decide (system E = "Darwin")) as [Hn|_]; [exfalso; apply Hs; rewrite Hn; auto|].
  destruct (decide (system E = "Linux")) as [Hn|_]; [exfalso; apply Hs; rewrite Hn; auto|].
  reflexivity.
Qed.

Lemma toolchain_check_unknown_system_witness :
  importable freebsd_no_ffmpeg "rich" = true /\ hosted freebsd_no_ffmpeg = false
  /\ ffmpeg_missing freebsd_no_ffmpeg = true
  /\ check_ffmpeg freebsd_no_ffmpeg empty_disk
     = Run (Raise (UnboundLocalError "extra_note")) empty_disk [EvRun ffmpeg_probe []].
Proof.
  split; [reflexivity | split; [reflexivity | split; [reflexivity|]]].
  apply (toolchain_check_unknown_system freebsd_no_ffmpeg empty_disk); try reflexivity.
  simpl. intros [H|[H|[H|[]]]]; discriminate H.
Defined.

(** X9: when the ffmpeg probe does not fail in the way the [except]
    clause handles, the toolchain check starts no other command, hosted
    or not: a probe that exits with 0 gives True, and a probe that cannot
    be started for another reason than a missing executable raises its
    OSError, with neither apt-get nor guidance. *)
Theorem toolchain_check_without_remedy E d :
  importable E "rich" = true -> ffmpeg_missing E = false ->
  (spawn E ffmpeg_probe = Exited 0
   /\ check_ffmpeg E d
      = Run (Ret true) d [EvRun ffmpeg_probe [];
                          EvPrint (Panel "✅ FFmpeg is already installed" "green")])
  \/ (spawn E ffmpeg_probe = CannotStart
      /\ check_ffmpeg E d = Run (Raise (OSError "ffmpeg")) d [EvRun ffmpeg_probe []]).
Proof.
  intros Hr Hm. unfold ffmpeg_missing in Hm.
  destruct (spawn E ffmpeg_probe) as [rc| |] eqn:Hp; [|done|].
  - apply negb_false_iff, Z.eqb_eq in Hm. subst rc. left. split; [done|].
    by apply check_ffmpeg_present.
  - right. split; [done|]. by apply check_ffmpeg_cannot_start.
Qed.

Lemma toolchain_check_without_remedy_witness :
  importable local_ffmpeg_not_executable "rich" = true
  /\ ffmpeg_missing local_ffmpeg_not_executable = false
  /\ value (check_ffmpeg local_ffmpeg_not_executable empty_disk) = Raise (OSError "ffmpeg").
Proof.
  split; [reflexivity | split; [reflexivity|]].
  destruct (toolchain_check_without_remedy local_ffmpeg_not_executable empty_disk)
    as [[H _]|[_ H]]; [reflexivity | reflexivity | discriminate H | by rewrite H].
Defined.

(** ** More on the GPU probe *)

(** X10: when [nvmlShutdown] raises in the [finally] clause, its
    exception is what the probe gives, whatever the [try] block did: a
    True, a False and an exception of the block are all replaced. *)
Theorem gpu_probe_shutdown_exception_wins E d e :
  spawn E [executable E; "-m"; "pip"; "install"; "pynvml"] = Exited 0 ->
  importable E "pynvml" = true ->
  nvmlShutdown E = Raise e ->
  value (check_nvidia_gpu E d) = Raise e.
Proof. intros Hpip Himp Hs. rewrite check_nvidia_gpu_imported by done. by rewrite Hs. Qed.

Lemma gpu_probe_shutdown_exception_wins_witness :
  spawn local_no_driver_shutdown_raises
        [executable local_no_driver_shutdown_raises; "-m"; "pip"; "install"; "pynvml"] = Exited 0
  /\ importable local_no_driver_shutdown_raises "pynvml" = true
  /\ nvmlShutdown local_no_driver_shutdown_raises = Raise (NVMLError 1)
  /\ value (check_nvidia_gpu local_no_driver_shutdown_raises empty_disk) = Raise (NVMLError 1).
Proof.
  split; [reflexivity | split; [reflexivity | split; [reflexivity|]]].
  apply (gpu_probe_shutdown_exception_wins local_no_driver_shutdown_raises empty_disk);
    reflexivity.
Defined.

Lemma printed_app l1 l2 : printed (l1 ++ l2) = printed l1 ++ printed l2.
Proof. unfold printed. apply omap_app. Qed.

(** The loop over the devices [first .. first + count - 1]. *)
Lemma device_loop E (handle : nat -> nat) (name : nat -> string) count first d :
  (forall i, (first <= i < first + count)%nat ->
     nvmlDeviceGetHandleByIndex E i = Ret (handle i)
     /\ nvmlDeviceGetName E (handle i) = Ret (name i)) ->
  let r := for_each (seq first count) (fun i =>
             bind (call "pynvml.nvmlDeviceGetHandleByIndex" (nvmlDeviceGetHandleByIndex E i))
               (fun h => bind (call "pynvml.nvmlDeviceGetName" (nvmlDeviceGetName E h))
                  (fun n => print (Text ("GPU " ++ pretty i ++ ": " ++ n)%string)))) d in
  value r = Ret tt /\ disk r = d
  /\ printed (log r)
     = map (fun i => Text ("GPU " ++ pretty i ++ ": " ++ name i)%string) (seq first count).
Proof.
  cbv zeta. match goal with |- context [for_each _ ?b] => set (body := b) end.
  revert first. induction count as [|count IH]; intros first H; [done|].
  destruct (H first) as [Hh Hn]; [lia|].
  destruct (IH (S first)) as (Hv & Hd & Hl); [intros i Hi; apply H; lia|].
  assert (Hbody : body first d
                  = Run (Ret tt) d
                        [EvCall "pynvml.nvmlDeviceGetHandleByIndex";
                         EvCall "pynvml.nvmlDeviceGetName";
                         EvPrint (Text ("GPU " ++ pretty first ++ ": " ++ name first)%string)]).
  { unfold body. rewrite bind_run, call_run, Hh. cbv beta iota.
    by rewrite bind_run, call_run, Hn. }
  simpl for_each. rewrite bind_run, Hbody. cbv beta iota.
  rewrite value_after, disk_after, log_after, printed_app, Hv, Hd, Hl. done.
Qed.

Lemma check_nvidia_gpu_log E d :
  spawn E [executable E; "-m"; "pip"; "install"; "pynvml"] = Exited 0 ->
  importable E "pynvml" = true ->
  forall b, value (query_devices E d) = Ret b ->
  log (check_nvidia_gpu E d)
  = EvRun [executable E; "-m"; "pip"; "install"; "pynvml"] []
    :: log (query_devices E d) ++ [EvCall "pynvml.nvmlShutdown"].
Proof.
  intros Hpip Himp b Hb. unfold check_nvidia_gpu. rewrite bind_run.
  unfold install_package, subprocess_check_call. rewrite checked_process_run.
  simpl app. rewrite Hpip. cbv beta iota. simpl checked. cbv beta iota.
  rewrite log_after, bind_run, import_ok by done. cbv beta iota.
  rewrite after_nil, log_try_finally, log_try_except, Hb, app_nil_r.
  reflexivity.
Qed.

(** X11: when the install, the import and every NVML call succeed, the
    probe returns True exactly when the device count is positive, and
    prints one line per device, in order, with the index and the name of
    the device; with no device it prints that none was detected. *)
Theorem gpu_probe_lists_the_devices E d count (handle : nat -> nat) (name : nat -> string) :
  spawn E [executable E; "-m"; "pip"; "install"; "pynvml"] = Exited 0 ->
  importable E "pynvml" = true ->
  nvmlInit E = Ret tt -> nvmlDeviceGetCount E = Ret count -> nvmlShutdown E = Ret tt ->
  (forall i, (i < count)%nat ->
     nvmlDeviceGetHandleByIndex E i = Ret (handle i)
     /\ nvmlDeviceGetName E (handle i) = Ret (name i)) ->
  value (check_nvidia_gpu E d) = Ret (0 <? count)%nat
  /\ printed (log (check_nvidia_gpu E d))
     = match count with
       | O => [Text "No NVIDIA GPU detected"]
       | _ => Text "Detected NVIDIA GPU(s)"
              :: map (fun i => Text ("GPU " ++ pretty i ++ ": " ++ name i)%string) (seq 0 count)
       end.
Proof.
  intros Hpip Himp Hi Hc Hs Hdev.
  destruct (device_loop E handle name count 0 d) as (Hv & Hd & Hl);
    [intros i Hi'; apply Hdev; lia|]. cbv zeta in Hv, Hd, Hl.
  assert (Hq : value (query_devices E d) = Ret (0 <? count)%nat
               /\ printed (log (query_devices E d))
                  = match count with
                    | O => [Text "No NVIDIA GPU detected"]
                    | _ => Text "Detected NVIDIA GPU(s)"
                           :: map (fun i => Text ("GPU " ++ pretty i ++ ": " ++ name i)%string)
                                  (seq 0 count)
                    end).
  { unfold query_devices. rewrite bind_run, call_run, Hi. cbv beta iota.
    rewrite value_after, log_after, bind_run, call_run, Hc. cbv beta iota.
    rewrite value_after, log_after. destruct count as [|n]; [done|].
    change (0 <? S n)%nat with true. cbv beta iota.
    rewrite bind_run, print_run. cbv beta iota.
    rewrite value_after, log_after, value_bind, log_bind, Hv, !printed_app, Hl.
    split; [done|]. simpl. by rewrite app_nil_r. }
  destruct Hq as [Hqv Hql]. split.
  - rewrite check_nvidia_gpu_imported by done. by rewrite Hs, Hqv.
  - rewrite (check_nvidia_gpu_log E d Hpip Himp _ Hqv).
    change (printed (?x :: ?l)) with (printed ([x] ++ l)).
    rewrite !printed_app, Hql. simpl. by rewrite app_nil_r.
Qed.

Lemma gpu_probe_lists_the_devices_witness :
  value (check_nvidia_gpu local_two_gpus empty_disk) = Ret true
  /\ printed (log (check_nvidia_gpu local_two_gpus empty_disk))
     = [Text "Detected NVIDIA GPU(s)"; Text "GPU 0: NVIDIA T4"; Text "GPU 1: NVIDIA T4"].
Proof.
  apply (gpu_probe_lists_the_devices local_two_gpus empty_disk 2
           (fun i => i) (fun _ => "NVIDIA T4"%string)); try reflexivity.
  intros i _. split; reflexivity.
Defined.

(** ** The steps kept for a local machine *)

Lemma silent_local_step_check_ffmpeg E : silent is_local_step (check_ffmpeg E).
Proof.
  unfold check_ffmpeg. silence.
  all: destruct (ffmpeg_guidance (system E)) as [cmd [note|]]; silence.
Qed.

Lemma silent_local_step_install_requirements E :
  silent is_local_step (install_requirements E).
Proof. unfold install_requirements. silence. Qed.

Lemma silent_local_step_finish E : silent is_local_step (finish_and_launch E).
Proof. unfold finish_and_launch. silence. Qed.

Lemma silent_local_step_prepare_hosted E :
  hosted E = true -> silent is_local_step (prepare E).
Proof. intros Hh. unfold prepare. silence. Qed.

(** X12: in the hosted runtime [main] never chooses a package mirror,
    never probes for a GPU (neither the install of pynvml nor a call into
    it) and never installs torch: these steps are kept for a local
    machine. *)
Theorem hosted_run_skips_the_local_steps E d :
  hosted E = true -> Forall (fun ev => is_local_step ev = false) (log (main E d)).
Proof.
  intros Hh. revert d. change (silent is_local_step (main E)).
  apply silent_main_parts; [done | by apply silent_lookups | ..].
  - apply silent_local_step_check_ffmpeg.
  - by apply silent_local_step_prepare_hosted.
  - apply silent_local_step_install_requirements.
  - apply silent_local_step_finish.
Qed.

Lemma hosted_run_skips_the_local_steps_witness :
  hosted colab_pip_r_fails = true
  /\ Forall (fun ev => is_local_step ev = false) (log (main colab_pip_r_fails project_disk)).
Proof.
  split; [reflexivity|].
  apply (hosted_run_skips_the_local_steps colab_pip_r_fails project_disk). reflexivity.
Defined.

Lemma silent_gpu_probe_check_ffmpeg E : silent is_gpu_probe (check_ffmpeg E).
Proof.
  unfold check_ffmpeg. silence.
  all: destruct (ffmpeg_guidance (system E)) as [cmd [note|]]; silence.
Qed.

Lemma silent_gpu_probe_install_requirements E :
  silent is_gpu_probe (install_requirements E).
Proof. unfold install_requirements. silence. Qed.

Lemma silent_gpu_probe_finish E : silent is_gpu_probe (finish_and_launch E).
Proof. unfold finish_and_launch. silence. Qed.

Lemma silent_gpu_probe_prepare_darwin E :
  system E = "Darwin" -> silent is_gpu_probe (prepare E).
Proof.
  intros Hs. unfold prepare, install_torch. rewrite Hs.
  change (negb ("Darwin" =? "Darwin")%string) with false. cbv iota.
  silence.
Qed.

(** X13: on macOS (system name Darwin) [main] never probes for a GPU:
    pynvml is neither installed nor called, in the hosted runtime or out
    of it. *)
Theorem darwin_run_never_probes_the_gpu E d :
  system E = "Darwin" -> Forall (fun ev => is_gpu_probe ev = false) (log (main E d)).
Proof.
  intros Hs. revert d. change (silent is_gpu_probe (main E)).
  apply silent_main_parts; [done | by apply silent_lookups | ..].
  - apply silent_gpu_probe_check_ffmpeg.
  - by apply silent_gpu_probe_prepare_darwin.
  - apply silent_gpu_probe_install_requirements.
  - apply silent_gpu_probe_finish.
Qed.

Lemma darwin_run_never_probes_the_gpu_witness :
  system mac_env = "Darwin"
  /\ Forall (fun ev => is_gpu_probe ev = false) (log (main mac_env project_disk)).
Proof.
  split; [reflexivity|].
  apply (darwin_run_never_probes_the_gpu mac_env project_disk). reflexivity.
Defined.

Lemma silent_torch_check_nvidia_gpu E : silent is_torch_install (check_nvidia_gpu E).
Proof. by apply silent_check_nvidia_gpu. Qed.

(** X14: when the mirror has been chosen, the PyTorch step of a local
    machine installs the CUDA build (torch 2.0.0 from the cu118 index)
    exactly when the system is not Darwin and the GPU probe returned
    True, and the CPU build (torch 2.1.2) exactly when the system is
    Darwin or the probe returned False; when the probe raises, neither is
    attempted. *)
Theorem torch_build_follows_the_probe E d :
  importable E "core.pypi_autochoose" = true -> choose_mirror E = Ret tt ->
  let cuda := EvRun [executable E; "-m"; "pip"; "install"; "torch==2.0.0"; "torchaudio==2.0.0";
                     "--index-url"; "https://download.pytorch.org/whl/cu118"] [] in
  let cpu := EvRun [executable E; "-m"; "pip"; "install"; "torch==2.1.2"; "torchaudio==2.1.2"] [] in
  (In cuda (log (install_torch E d))
   <-> system E <> "Darwin" /\ value (check_nvidia_gpu E d) = Ret true)
  /\ (In cpu (log (install_torch E d))
      <-> system E = "Darwin" \/ value (check_nvidia_gpu E d) = Ret false).
Proof.
  intros Hi Hm cuda cpu.
  assert (Hcuda : ~ In cuda (log (check_nvidia_gpu E d))).
  { by apply (silent_not_in is_torch_install); [apply silent_torch_check_nvidia_gpu|]. }
  assert (Hcpu : ~ In cpu (log (check_nvidia_gpu E d))).
  { by apply (silent_not_in is_torch_install); [apply silent_torch_check_nvidia_gpu|]. }
  unfold install_torch.
  rewrite bind_run, import_ok by done. cbv beta iota. rewrite after_nil.
  rewrite bind_run, call_run, Hm. cbv beta iota. rewrite log_after, log_bind.
  destruct (String.eqb_spec (system E) "Darwin") as [Hs|Hs].
  - change (negb true) with false. cbv iota. simpl. split; split.
    + intros [H|[H|[H|[]]]]; discriminate H.
    + by intros [? _].
    + by left.
    + intros _. right. right. by left.
  - change (negb false) with true. cbv iota.
    destruct (check_nvidia_gpu E d) as [v d' l]. simpl in Hcuda, Hcpu.
    destruct v as [[]|e]; simpl; rewrite !in_app_iff; simpl; subst cuda cpu;
      split; split; intuition (first [discriminate | congruence | done]).
Qed.

Lemma torch_build_follows_the_probe_witness :
  importable local_two_gpus "core.pypi_autochoose" = true
  /\ choose_mirror local_two_gpus = Ret tt
  /\ In (EvRun [python; "-m"; "pip"; "install"; "torch==2.0.0"; "torchaudio==2.0.0";
                "--index-url"; "https://download.pytorch.org/whl/cu118"] [])
        (log (install_torch local_two_gpus empty_disk))
  /\ In (EvRun [python; "-m"; "pip"; "install"; "torch==2.1.2"; "torchaudio==2.1.2"] [])
        (log (install_torch mac_env empty_disk)).
Proof.
  split; [reflexivity | split; [reflexivity|]]. split.
  - destruct (torch_build_follows_the_probe local_two_gpus empty_disk eq_refl eq_refl)
      as [[_ H] _].
    apply H. split; [discriminate | reflexivity].
  - destruct (torch_build_follows_the_probe mac_env empty_disk eq_refl eq_refl) as [_ [_ H]].
    apply H. left. reflexivity.
Defined.

(** ** The first steps of [main] *)

(** X15: [main] imports rich before it installs it: where rich cannot be
    imported, [main] stops at once with ImportError, having started no
    command, printed nothing and touched no file; so a run in which
    [pip install requests rich ruamel.yaml] is attempted is a run where
    rich was there already. *)
Theorem main_needs_rich_beforehand E d :
  (importable E "rich" = false -> main E d = Run (Raise (ImportError "rich")) d [])
  /\ (In (EvRun [executable E; "-m"; "pip"; "install"; "requests"; "rich"; "ruamel.yaml"] [])
         (log (main E d)) ->
      importable E "rich" = true).
Proof.
  split.
  - intros Hr. by rewrite main_run, Hr.
  - rewrite main_run. by destruct (importable E "rich").
Qed.

Lemma main_needs_rich_beforehand_witness :
  importable local_no_rich "rich" = false
  /\ main local_no_rich project_disk = Run (Raise (ImportError "rich")) project_disk [].
Proof.
  split; [reflexivity|].
  apply (proj1 (main_needs_rich_beforehand local_no_rich project_disk)). reflexivity.
Defined.

(** ** The temporary file, once more *)

(** X16: in the hosted runtime, when the pip install of the requirements
    succeeds, the file operations of [install_requirements] are the write
    of requirements_temp.txt, before pip runs, and its removal, after;
    once the function has returned there is no requirements_temp.txt,
    also where one was there before the run. *)
Theorem successful_install_removes_the_temp_file E d content :
  hosted E = true -> d !! "requirements.txt" = Some content ->
  spawn E (pip_install_r E "requirements_temp.txt") = Exited 0 ->
  value (install_requirements E d) = Ret tt
  /\ disk (install_requirements E d) !! "requirements_temp.txt" = None
  /\ log (install_requirements E d)
     = [EvWrite "requirements_temp.txt" (temp_content content);
        EvRun (pip_install_r E "requirements_temp.txt") pip_env;
        EvRemove "requirements_temp.txt"].
Proof.
  intros Hh Hd Hp. pose proof (install_requirements_hosted E d content Hh Hd) as Hrun.
  cbv zeta in Hrun. rewrite Hrun, Hp. simpl.
  split; [done | split; [apply lookup_delete_eq|]].
  reflexivity.
Qed.

Lemma successful_install_removes_the_temp_file_witness :
  hosted colab_env = true
  /\ project_disk !! "requirements.txt" = Some requirements_txt
  /\ value (install_requirements colab_env
              (<["requirements_temp.txt" := "stale"]> project_disk)) = Ret tt
  /\ disk (install_requirements colab_env
             (<["requirements_temp.txt" := "stale"]> project_disk))
     !! "requirements_temp.txt" = None.
Proof.
  split; [reflexivity | split; [reflexivity|]].
  destruct (successful_install_removes_the_temp_file colab_env
              (<["requirements_temp.txt" := "stale"]> project_disk) requirements_txt)
    as (H1 & H2 & _); [reflexivity | reflexivity | reflexivity |].
  split; [exact H1 | exact H2].
Defined.

(** ** The strings of the requirements file *)

Lemma rstrip_idem s : Str.rstrip (Str.rstrip s) = Str.rstrip s.
Proof.
  induction s as [|c s IH]; [done|]. simpl.
  destruct (Str.rstrip s) as [|a r] eqn:Hr.
  - destruct (Str.isspace c) eqn:Hc; [done|]. simpl. by rewrite Hc.
  - change (Str.rstrip (String c (String a r)))
      with (match Str.rstrip (String a r) with
            | EmptyString => if Str.isspace c then EmptyString else String c EmptyString
            | r' => String c r'
            end).
    by rewrite IH.
Qed.

Lemma lstrip_cases s :
  Str.lstrip s = "" \/ exists c s', Str.lstrip s = String c s' /\ Str.isspace c = false.
Proof.
  induction s as [|c s IH]; [by left|]. simpl.
  destruct (Str.isspace c) eqn:Hc; [done | right; eauto].
Qed.

Lemma rstrip_head c s :
  Str.isspace c = false -> exists r, Str.rstrip (String c s) = String c r.
Proof. intros Hc. simpl. destruct (Str.rstrip s); [rewrite Hc|]; eauto. Qed.

Lemma strip_idem s : Str.strip (Str.strip s) = Str.strip s.
Proof.
  unfold Str.strip. destruct (lstrip_cases s) as [->|(c & s' & -> & Hc)]; [done|].
  destruct (rstrip_head c s' Hc) as [r Hr]. rewrite Hr. simpl Str.lstrip. rewrite Hc.
  rewrite <- Hr. apply rstrip_idem.
Qed.

(** A line that begins with [#] is a comment line. *)
Lemma has_prefix_comment_line r : has_prefix "#" r -> comment_line r.
Proof.
  intros [rest ->]. unfold comment_line, Str.strip.
  change ("#" ++ rest)%string with (String "#" rest). simpl Str.lstrip.
  destruct (rstrip_head "#" rest eq_refl) as [r ->]. by exists r.
Qed.

(** Where no comment of the file is indented, the script goes through the
    requirement lines of the file, stripped and in order. *)
Lemma parse_requirements_requirement_lines content :
  Forall (fun r => comment_line r -> has_prefix "#" r) (Str.splitlines content) ->
  parse_requirements content = map Str.strip (filter requirement_line (Str.splitlines content)).
Proof.
  intros H. rewrite parse_requirements_valid. f_equal.
  induction H as [|r l Hr _ IH]; [done|].
  rewrite !filter_cons, IH.
  destruct (decide (valid_line r)) as [[Hb Hc]|Hn];
    destruct (decide (requirement_line r)) as [[Hb' Hc']|Hn']; try done.
  - destruct Hn'. split; [done|]. intros Hcl. by apply Hc, Hr.
  - destruct Hn. split; [done|]. intros Hp. by apply Hc', has_prefix_comment_line.
Qed.

(** X17: every requirement that the satisfaction check goes through is
    not empty and carries no white space at either end: stripping it
    again changes nothing. *)
Theorem parsed_requirements_are_stripped content :
  Forall (fun req => req <> "" /\ Str.strip req = req) (parse_requirements content).
Proof.
  rewrite parse_requirements_valid. apply List.Forall_forall. intros req Hreq.
  apply in_map_iff in Hreq as (line & <- & Hline).
  apply list_elem_of_In, list_elem_of_filter in Hline as [[Hblank _] _].
  split; [done | apply strip_idem].
Qed.

Lemma is_cr_linebreak c : Str.islinebreak c = false -> Str.is_cr c = false.
Proof.
  unfold Str.islinebreak, Str.is_cr. intros H.
  destruct (N.eqb_spec (N_of_ascii c) 13) as [Hc|]; [|done].
  rewrite Hc in H. discriminate H.
Qed.

Lemma string_app_cons c s t : (String c s ++ t)%string = String c (s ++ t)%string.
Proof. reflexivity. Qed.

Lemma string_app_nil_r s : (s ++ "")%string = s.
Proof. induction s as [|c s IH]; [done|]. by rewrite string_app_cons, IH. Qed.

(** Reading a line that holds no boundary only fills the current line. *)
Lemma splitlines_from_line line acc rest :
  one_line line = true ->
  Str.splitlines_from acc (line ++ rest)%string
  = Str.splitlines_from (rev (list_ascii_of_string line) ++ acc) rest.
Proof.
  revert acc. induction line as [|c line IH]; intros acc Hl; [done|].
  simpl in Hl. apply andb_true_iff in Hl as [Hc Hl]. apply negb_true_iff in Hc.
  rewrite string_app_cons. simpl Str.splitlines_from.
  rewrite (is_cr_linebreak c Hc), Hc, IH by done.
  simpl. by rewrite <- app_assoc.
Qed.

Lemma splitlines_from_newline acc rest :
  Str.splitlines_from acc (Str.nl ++ rest)%string
  = string_of_list_ascii (rev acc) :: Str.splitlines_from [] rest.
Proof. reflexivity. Qed.

Lemma string_of_rev_rev s acc :
  acc = [] -> string_of_list_ascii (rev (rev (list_ascii_of_string s) ++ acc)) = s.
Proof.
  intros ->. by rewrite app_nil_r, rev_involutive, string_of_list_ascii_of_string.
Qed.

Lemma splitlines_from_end acc :
  acc <> [] -> Str.splitlines_from acc "" = [string_of_list_ascii (rev acc)].
Proof. by destruct acc. Qed.

(** Lines joined by newlines and split again are the lines, but for a
    last line that is empty. *)
Lemma splitlines_join lines :
  Forall (fun l => one_line l = true) lines ->
  Str.splitlines (Str.join Str.nl lines) = drop_last_blank lines.
Proof.
  unfold Str.splitlines, Str.join.
  induction 1 as [|x lines Hx Hl IH]; [done|].
  destruct lines as [|y lines].
  - simpl String.concat. simpl drop_last_blank.
    rewrite <- (string_app_nil_r x) at 1. rewrite splitlines_from_line by done.
    rewrite app_nil_r. destruct x as [|c x]; [done|].
    change (String c x =? "")%string with false. cbv iota.
    rewrite splitlines_from_end.
    + by rewrite rev_involutive, string_of_list_ascii_of_string.
    + intros Hrev. apply (f_equal (@rev _)) in Hrev. rewrite rev_involutive in Hrev.
      discriminate Hrev.
  - change (String.concat Str.nl (x :: y :: lines))
      with (x ++ Str.nl ++ String.concat Str.nl (y :: lines))%string.
    rewrite splitlines_from_line, splitlines_from_newline, IH by done.
    rewrite string_of_rev_rev by done.
    change (drop_last_blank (x :: y :: lines)) with (x :: drop_last_blank (y :: lines)).
    done.
Qed.

Lemma one_line_of_list l :
  Forall (fun c => Str.islinebreak c = false) l -> one_line (string_of_list_ascii l) = true.
Proof. induction 1 as [|c l Hc _ IH]; [done|]. simpl. by rewrite Hc, IH. Qed.

Lemma splitlines_from_one_line n : forall s acc,
  (String.length s <= n)%nat ->
  Forall (fun c => Str.islinebreak c = false) acc ->
  Forall (fun l => one_line l = true) (Str.splitlines_from acc s).
Proof.
  induction n as [|n IH]; intros s acc Hn Hacc.
  - destruct s; [|simpl in Hn; lia]. simpl.
    destruct acc; [constructor|]. repeat constructor.
    by apply one_line_of_list, Forall_rev.
  - destruct s as [|c s].
    { simpl. destruct acc; [constructor|]. repeat constructor.
      by apply one_line_of_list, Forall_rev. }
    simpl in Hn. simpl Str.splitlines_from.
    assert (Hline : one_line (string_of_list_ascii (rev acc)) = true)
      by (by apply one_line_of_list, Forall_rev).
    destruct (Str.is_cr c).
    + destruct s as [|c' s]; [repeat constructor; done|].
      simpl in Hn. destruct (Str.is_lf c'); constructor; try done.
      * apply IH; [lia | constructor].
      * apply IH; [simpl; lia | constructor].
    + destruct (Str.islinebreak c) eqn:Hc.
      * constructor; [done|]. apply IH; [lia | constructor].
      * apply IH; [lia|]. by constructor.
Qed.

Lemma splitlines_one_line s : Forall (fun l => one_line l = true) (Str.splitlines s).
Proof. by apply (splitlines_from_one_line (String.length s)). Qed.

Lemma filter_drop_last_blank lines :
  filter valid_line (drop_last_blank lines) = filter valid_line lines.
Proof.
  induction lines as [|x lines IH]; [done|].
  destruct lines as [|y lines].
  - simpl. destruct (String.eqb_spec x ""); [subst|done].
    rewrite filter_cons. destruct (decide (valid_line "")) as [[H _]|]; done.
  - change (drop_last_blank (x :: y :: lines)) with (x :: drop_last_blank (y :: lines)).
    by rewrite !(filter_cons _ x), IH.
Qed.

(** X18: the text written to requirements_temp.txt, split into lines
    again, is the lines of requirements.txt that do not start with
    [torch] (but for a last line that is empty), so the requirements in
    the temporary file are those of requirements.txt whose line does not
    start with [torch]. *)
Theorem temp_file_reads_back content :
  let kept := filter (fun r => ~ has_prefix "torch" r) (Str.splitlines content) in
  Str.splitlines (temp_content content) = drop_last_blank kept
  /\ parse_requirements (temp_content content)
     = map Str.strip (filter (fun r => valid_line r /\ ~ has_prefix "torch" r)
                             (Str.splitlines content)).
Proof.
  intros kept.
  assert (Hsplit : Str.splitlines (temp_content content) = drop_last_blank kept).
  { rewrite temp_content_kept. apply splitlines_join.
    apply Forall_forall. intros l Hl. apply list_elem_of_filter in Hl as [_ Hl].
    pose proof (splitlines_one_line content) as Hall.
    rewrite Forall_forall in Hall. by apply Hall. }
  split; [done|].
  rewrite parse_requirements_valid, Hsplit, filter_drop_last_blank. f_equal.
  unfold kept. by rewrite list_filter_filter.
Qed.

(** ** The package name of a requirement *)

Lemma prefix_app sep t : String.prefix sep (sep ++ t)%string = true.
Proof. apply prefix_has_prefix. by exists t. Qed.

Lemma contains_prefix sep t : Str.contains sep (sep ++ t)%string = true.
Proof.
  pose proof (prefix_app sep t) as H. destruct (sep ++ t)%string as [|a s].
  - destruct sep; [done | discriminate H].
  - change (Str.contains sep (String a s))
      with (String.prefix sep (String a s) || Str.contains sep s).
    by rewrite H.
Qed.

Lemma prefix_other_head c sep a s :
  Ascii.eqb a c = false -> String.prefix (String c sep) (String a s) = false.
Proof.
  intros Ha. simpl. destruct (ascii_dec c a) as [->|]; [|done].
  by rewrite Ascii.eqb_refl in Ha.
Qed.

Lemma contains_skips_name c sep name t :
  has_char c name = false ->
  Str.contains (String c sep) (name ++ t)%string = Str.contains (String c sep) t.
Proof.
  induction name as [|a name IH]; [done|]. intros H. simpl in H.
  apply orb_false_iff in H as [Ha Hn].
  rewrite string_app_cons.
  change (Str.contains (String c sep) (String a (name ++ t)%string))
    with (String.prefix (String c sep) (String a (name ++ t)%string)
          || Str.contains (String c sep) (name ++ t)%string).
  by rewrite prefix_other_head, IH.
Qed.

Lemma split_head_name c sep name t :
  has_char c name = false ->
  Str.split_head (String c sep) (name ++ String c sep ++ t)%string = name.
Proof.
  induction name as [|a name IH]; intros H; simpl in H.
  - change ("" ++ String c sep ++ t)%string with (String c (sep ++ t)%string).
    change (Str.split_head (String c sep) (String c (sep ++ t)%string))
      with (if String.prefix (String c sep) (String c sep ++ t)%string then ""%string
            else String c (Str.split_head (String c sep) (sep ++ t)%string)).
    by rewrite prefix_app.
  - apply orb_false_iff in H as [Ha Hn].
    rewrite string_app_cons.
    change (Str.split_head (String c sep) (String a (name ++ String c sep ++ t)%string))
      with (if String.prefix (String c sep) (String a (name ++ String c sep ++ t)%string)
            then ""%string
            else String a (Str.split_head (String c sep) (name ++ String c sep ++ t)%string)).
    by rewrite prefix_other_head, IH.
Qed.

Lemma contains_absent c sep name :
  has_char c name = false -> Str.contains (String c sep) name = false.
Proof.
  intros H. rewrite <- (string_app_nil_r name), contains_skips_name by done. reflexivity.
Qed.

(** X19: for a name that holds neither [=] nor [>], the package looked
    up for [name==version] is [name], whatever the version, and so is the
    one looked up for [name>=version] when no [==] follows; a bare name is
    looked up as it is.  The satisfaction check therefore gives the same
    answer for every version pinned: the version installed is not
    compared. *)
Theorem package_name_ignores_the_version E name version :
  has_char "="%char name = false -> has_char ">"%char name = false ->
  package_name_of (name ++ "==" ++ version)%string = name
  /\ (Str.contains "==" (">=" ++ version)%string = false ->
      package_name_of (name ++ ">=" ++ version)%string = name)
  /\ package_name_of name = name
  /\ installed E (name ++ "==" ++ version)%string = installed E name.
Proof.
  intros Heq Hgt.
  assert (H1 : package_name_of (name ++ "==" ++ version)%string = name).
  { unfold package_name_of.
    rewrite (contains_skips_name "="%char "=" name) by done.
    rewrite (contains_prefix "==" version).
    by apply (split_head_name "="%char "=" name version). }
  assert (H3 : package_name_of name = name).
  { unfold package_name_of.
    by rewrite (contains_absent "="%char "=" name), (contains_absent ">"%char "=" name). }
  split; [done|]. split; [|split; [done|]].
  - intros Hv. unfold package_name_of.
    rewrite (contains_skips_name "="%char "=" name) by done. rewrite Hv.
    rewrite (contains_skips_name ">"%char "=" name) by done.
    rewrite (contains_prefix ">=" version).
    by apply (split_head_name ">"%char "=" name version).
  - unfold installed. by rewrite H1, H3.
Qed.

Lemma package_name_ignores_the_version_witness :
  has_char "="%char "numpy" = false /\ has_char ">"%char "numpy" = false
  /\ package_name_of "numpy==1.26.4" = "numpy"%string
  /\ package_name_of "numpy>=1.24" = "numpy"%string.
Proof.
  split; [reflexivity | split; [reflexivity|]].
  destruct (package_name_ignores_the_version colab_env "numpy" "1.26.4") as (H1 & _);
    [reflexivity | reflexivity |].
  destruct (package_name_ignores_the_version colab_env "numpy" "1.24") as (_ & H2 & _);
    [reflexivity | reflexivity |].
  split; [exact H1 | apply H2; reflexivity].
Defined.

(** ** The order of the child processes *)

Lemma ranks_app l1 l2 : ranks (l1 ++ l2) = ranks l1 ++ ranks l2.
Proof. apply omap_app. Qed.

Lemma ranks_cons ev l :
  ranks (ev :: l) = match step_rank ev with
                    | Some r => r :: ranks l
                    | None => ranks l
                    end.
Proof. reflexivity. Qed.

Lemma sorted_app lo mid hi (l1 l2 : list nat) :
  StronglySorted lt l1 -> Forall (fun r => (lo <= r < mid)%nat) l1 ->
  StronglySorted lt l2 -> Forall (fun r => (mid <= r < hi)%nat) l2 ->
  (lo <= mid <= hi)%nat ->
  StronglySorted lt (l1 ++ l2) /\ Forall (fun r => (lo <= r < hi)%nat) (l1 ++ l2).
Proof.
  intros Hs1 Hb1 Hs2 Hb2 Hm. split.
  - induction Hs1 as [|x l1 Hs1 IH Hx]; [done|]. simpl.
    apply Forall_cons in Hb1 as [Hbx Hb1]. constructor; [by apply IH|].
    apply Forall_app. split; [done|]. eapply Forall_impl; [apply Hb2|]. simpl. lia.
  - apply Forall_app. split; (eapply Forall_impl; [eassumption|]); simpl; lia.
Qed.

Lemma in_order_bind lo mid hi {A B} (m : M A) (k : A -> M B) :
  (lo <= mid <= hi)%nat ->
  in_order lo mid m -> (forall a, in_order mid hi (k a)) -> in_order lo hi (bind m k).
Proof.
  intros Hm Hin Hk d. rewrite log_bind, ranks_app.
  destruct (Hin d) as [Hs1 Hb1].
  destruct (value (m d)) as [a|e].
  - destruct (Hk a (disk (m d))) as [Hs2 Hb2]. by apply (sorted_app lo mid hi).
  - apply (sorted_app lo mid hi); try done; constructor.
Qed.

Lemma in_order_try_except lo mid hi {A} (body : M A) h :
  (lo <= mid <= hi)%nat ->
  in_order lo mid body ->
  (forall e handler, h e = Some handler -> in_order mid hi handler) ->
  in_order lo hi (try_except body h).
Proof.
  intros Hm Hin Hh d. rewrite log_try_except, ranks_app.
  destruct (Hin d) as [Hs1 Hb1].
  destruct (value (body d)) as [a|e]; [apply (sorted_app lo mid hi); try done; constructor|].
  destruct (h e) as [handler|] eqn:He; [|apply (sorted_app lo mid hi); try done; constructor].
  destruct (Hh e handler He (disk (body d))) as [Hs2 Hb2]. by apply (sorted_app lo mid hi).
Qed.

Lemma in_order_weaken lo hi lo' hi' {A} (m : M A) :
  (lo' <= lo)%nat -> (hi <= hi')%nat -> in_order lo hi m -> in_order lo' hi' m.
Proof.
  intros Hlo Hhi Hin d. destruct (Hin d) as [Hs Hb]. split; [done|].
  eapply Forall_impl; [apply Hb|]. simpl. lia.
Qed.

(** A function that starts no child process is in order anywhere. *)
Lemma in_order_quiet lo hi {A} (m : M A) : silent is_child_process m -> in_order lo hi m.
Proof.
  intros Hs d. assert (ranks (log (m d)) = []) as ->; [|split; constructor].
  specialize (Hs d). induction Hs as [|ev l Hev _ IH]; [done|].
  rewrite ranks_cons, IH. by destruct ev.
Qed.

Lemma in_order_process E argv env r :
  step_rank (EvRun argv env) = Some r -> in_order r (S r) (checked_process E argv env).
Proof.
  intros Hr d. rewrite checked_process_run. simpl log. rewrite ranks_cons, Hr.
  split; repeat constructor; lia.
Qed.

Lemma in_order_print lo hi o : in_order lo hi (print o).
Proof. apply in_order_quiet. by apply silent_emit. Qed.

Lemma in_order_check_nvidia_gpu E : in_order 2 3 (check_nvidia_gpu E).
Proof.
  unfold check_nvidia_gpu.
  apply (in_order_bind 2 3 3); [lia | by apply in_order_process | intros _].
  apply in_order_quiet.
  apply silent_bind; [apply silent_import | intros _].
  unfold query_devices. silence.
Qed.

Lemma in_order_prepare E : in_order 1 4 (prepare E).
Proof.
  unfold prepare.
  apply (in_order_bind 1 2 4); [lia | by apply in_order_process | intros _].
  apply (in_order_bind 2 2 4); [lia | apply in_order_print | intros _].
  apply (in_order_bind 2 2 4); [lia | apply in_order_print | intros _].
  apply (in_order_bind 2 2 4); [lia | apply in_order_quiet, silent_is_colab | intros colab].
  destruct colab; [apply in_order_print|]. unfold install_torch.
  apply (in_order_bind 2 2 4); [lia | apply in_order_quiet, silent_import | intros _].
  apply (in_order_bind 2 2 4); [lia | by apply in_order_quiet, silent_call | intros _].
  apply (in_order_bind 2 3 4); [lia | |intros has_gpu].
  - destruct (negb _); [apply in_order_check_nvidia_gpu|].
    apply in_order_quiet, silent_ret.
  - destruct has_gpu;
      (apply (in_order_bind 3 3 4); [lia | apply in_order_print | intros _]);
      by apply in_order_process.
Qed.

Lemma in_order_install_requirements E : in_order 4 5 (install_requirements E).
Proof.
  unfold install_requirements.
  apply (in_order_try_except 4 5 5); [lia | | handler_cases; apply in_order_print].
  apply (in_order_bind 4 4 5); [lia | apply in_order_quiet, silent_is_colab | intros colab].
  destruct colab; [|by apply in_order_process].
  apply (in_order_bind 4 4 5); [lia | apply in_order_quiet, silent_open_read | intros content].
  apply (in_order_bind 4 4 5); [lia | by apply in_order_quiet, silent_open_write | intros _].
  apply (in_order_bind 4 5 5); [lia | by apply in_order_process | intros _].
  by apply in_order_quiet, silent_os_remove.
Qed.

Lemma in_order_check_ffmpeg E : in_order 5 8 (check_ffmpeg E).
Proof.
  unfold check_ffmpeg.
  apply (in_order_bind 5 5 8); [lia | apply in_order_quiet, silent_import | intros _].
  apply (in_order_try_except 5 6 8); [lia | |].
  - apply (in_order_bind 5 6 6); [lia | by apply in_order_process | intros _].
    apply in_order_quiet. silence.
  - handler_cases.
    all: apply (in_order_bind 6 6 8); [lia | apply in_order_quiet, silent_is_colab | intros colab].
    all: destruct colab;
      [ apply (in_order_bind 6 7 8); [lia | by apply in_order_process | intros _];
        apply (in_order_bind 7 8 8); [lia | by apply in_order_process | intros _];
        apply in_order_quiet; silence
      | apply in_order_quiet;
        destruct (ffmpeg_guidance (system E)) as [how [note|]]; silence ].
Qed.

Lemma in_order_finish_and_launch E : in_order 8 9 (finish_and_launch E).
Proof.
  unfold finish_and_launch.
  repeat (apply (in_order_bind 8 8 9); [lia | apply in_order_print | intros _]).
  intros d. split; repeat constructor; simpl; lia.
Qed.

Lemma in_order_full_install E : in_order 1 9 (full_install E).
Proof.
  unfold full_install.
  apply (in_order_bind 1 4 9); [lia | apply in_order_prepare | intros _].
  apply (in_order_bind 4 5 9); [lia | apply in_order_install_requirements | intros _].
  apply (in_order_bind 5 8 9); [lia | apply in_order_check_ffmpeg | intros _].
  apply in_order_finish_and_launch.
Qed.

Lemma in_order_main E : in_order 1 9 (main E).
Proof.
  unfold main.
  apply (in_order_bind 1 1 9); [lia | apply in_order_quiet, silent_import | intros _].
  apply (in_order_bind 1 1 9); [lia | apply in_order_quiet, silent_is_colab | intros colab].
  destruct colab; [|apply in_order_full_install].
  apply (in_order_bind 1 1 9); [lia | apply in_order_print | intros _].
  apply (in_order_bind 1 1 9);
    [lia | by apply in_order_quiet, silent_lookups | intros sat].
  destruct sat; [|apply in_order_full_install].
  unfold ready_to_use.
  apply (in_order_bind 1 1 9); [lia | apply in_order_print | intros _].
  apply (in_order_bind 1 8 9);
    [lia | apply (in_order_weaken 5 8); [lia | lia | apply in_order_check_ffmpeg] | intros _].
  apply in_order_quiet. silence.
Qed.

Lemma silent_stray_main E : silent is_stray_process (main E).
Proof.
  apply silent_main_parts; [done | by apply silent_lookups | ..].
  - unfold check_ffmpeg. silence.
    all: destruct (ffmpeg_guidance (system E)) as [cmd [note|]]; silence.
  - unfold prepare, install_torch, check_nvidia_gpu, query_devices. silence.
  - unfold install_requirements. silence.
  - unfold finish_and_launch. silence.
Qed.

Lemma sorted_ranks_nodup (l : list event) :
  StronglySorted lt (ranks l) ->
  Forall (fun ev => is_stray_process ev = false) l ->
  NoDup (List.filter is_child_process l).
Proof.
  intros Hs Hl. induction Hl as [|ev l Hev Hl IH]; [constructor|].
  simpl. destruct (is_child_process ev) eqn:Hc.
  - unfold is_stray_process in Hev. rewrite Hc in Hev. simpl in Hev.
    apply negb_false_iff, bool_decide_eq_true in Hev as [r Hr].
    rewrite ranks_cons, Hr in Hs.
    apply StronglySorted_inv in Hs as [Hs Hlt].
    constructor; [|by apply IH].
    rewrite list_elem_of_In, filter_In. intros [Hin _].
    rewrite Forall_forall in Hlt. specialize (Hlt r).
    assert (r ∈ ranks l) as Hrin.
    { apply list_elem_of_omap. exists ev. split; [by apply list_elem_of_In | done]. }
    specialize (Hlt Hrin). lia.
  - apply IH. rewrite ranks_cons in Hs.
    destruct (step_rank ev) as [r|] eqn:Hr; [|done].
    by apply StronglySorted_inv in Hs as [Hs _].
Qed.

(** X20: whatever the world, the child processes of a run of [main] come
    in one order: the install of requests, rich and ruamel.yaml, the
    install of pynvml, the install of torch, the install of the
    requirements, the ffmpeg probe, [apt-get update], [apt-get install],
    the launch of the application.  Each is started at most once, [main]
    starts no other child process, and it starts no command twice. *)
Theorem child_processes_come_in_order E d :
  StronglySorted lt (ranks (log (main E d)))
  /\ Forall (fun ev => is_child_process ev = true -> is_Some (step_rank ev)) (log (main E d))
  /\ NoDup (List.filter is_child_process (log (main E d))).
Proof.
  pose proof (silent_stray_main E d) as Hstray.
  destruct (in_order_main E d) as [Hs _]. split; [done|]. split.
  - eapply Forall_impl; [apply Hstray|]. intros ev Hev Hc.
    unfold is_stray_process in Hev. rewrite Hc in Hev.
    by apply negb_false_iff, bool_decide_eq_true in Hev.
  - by apply sorted_ranks_nodup.
Qed.

(** ** Exceptions of the lookup *)

Lemma check_package_version_raises E name e d :
  importable E "pkg_resources" = true ->
  get_distribution E name = Raise e ->
  (forall x, e <> DistributionNotFound x) ->
  check_package_version E name d = Run (Raise e) d [EvCall "pkg_resources.get_distribution"].
Proof.
  intros Hi Hg He. unfold check_package_version.
  rewrite Hi, try_except_run, bind_run, call_run, Hg. cbv beta iota.
  destruct e; try reflexivity. by destruct (He req).
Qed.

Lemma all_installed_raises E before req after e d :
  importable E "pkg_resources" = true ->
  Forall (fun r => installed E r = true) before ->
  get_distribution E (package_name_of req) = Raise e ->
  (forall x, e <> DistributionNotFound x) ->
  all_installed E (before ++ req :: after) d
  = Run (Raise e) d (repeat (EvCall "pkg_resources.get_distribution") (S (List.length before))).
Proof.
  intros Hi Hb Hreq He. induction Hb as [|r before Hr _ IH]; simpl.
  - by rewrite bind_run, (check_package_version_raises E _ e).
  - unfold installed in Hr.
    destruct (get_distribution E (package_name_of r)) as [v|] eqn:Hv; [|done].
    rewrite bind_run, (check_package_version_found E _ v) by done.
    cbv beta iota. by rewrite IH.
Qed.

(** X21: an exception of the lookup other than DistributionNotFound is
    not taken for a missing package: it leaves the satisfaction check at
    the first requirement that raises it, with one exception,
    FileNotFoundError, which the [except] clause meant for a missing
    requirements.txt turns into False. *)
Theorem lookup_exception_leaves_the_check E d content before req after e :
  d !! "requirements.txt" = Some content ->
  importable E "pkg_resources" = true ->
  parse_requirements content = before ++ req :: after ->
  Forall (fun r => installed E r = true) before ->
  get_distribution E (package_name_of req) = Raise e ->
  (forall x, e <> DistributionNotFound x) ->
  value (check_requirements_satisfied E d)
  = match e with
    | FileNotFoundError _ => Ret false
    | _ => Raise e
    end.
Proof.
  intros Hd Hi Hp Hb Hreq He.
  rewrite (check_requirements_satisfied_reads E d content Hd), try_except_run, Hp.
  rewrite (all_installed_raises E before req after e) by done.
  by destruct e.
Qed.

Lemma lookup_exception_leaves_the_check_witness :
  project_disk !! "requirements.txt" = Some requirements_txt
  /\ get_distribution colab_numpy_conflict (package_name_of "numpy>=1.24")
     = Raise (OtherError "VersionConflict")
  /\ value (check_requirements_satisfied colab_numpy_conflict project_disk)
     = Raise (OtherError "VersionConflict").
Proof.
  split; [reflexivity | split; [reflexivity|]].
  apply (lookup_exception_leaves_the_check colab_numpy_conflict project_disk requirements_txt
           ["torch==2.0.0"; "torchaudio==2.0.0"] "numpy>=1.24" ["requests"]
           (OtherError "VersionConflict")); try reflexivity; [repeat constructor | discriminate].
Defined.
